(** * Imou PTZ camera channels

    A shallow embedding of [imouapi/channel.py] and
    [imouapi/channel_entity.py] (with the tables of [imouapi/const.py]):
    the channel object, its entities (sensor, button, select), the wake-up
    orchestration and the discovery service; and of the polling cycle of
    [coordinator.py].

    Python objects live in a store and are addressed by reference, so that
    an entity and the host see the same channel object.  Every coroutine is
    a state transformer over that store, the state of the cloud behind the
    API client, and the trace of what the code did to the outside (API
    requests, sleeps, log records).  Exceptions are results, not effects on
    the store: what was written before a [raise] stays written.  One task
    runs at a time, as the host schedules it (spec, section 5). *)

From Stdlib Require Import String Ascii List ZArith QArith Bool Lia.
From stdpp Require Import base list.
Import ListNotations.
Local Open Scope string_scope.
Local Close Scope Q_scope.
Set Warnings "-register-all".

(** ** Decoded JSON values

    What the API client hands back is decoded JSON; Python does not check
    the annotations of the code that consumes it, so the embedding keeps
    the values dynamically typed.  A [str] is held as its UTF-8 bytes; a
    number is never inspected by the code (only compared).  The keys of a
    [VDict] are pairwise distinct, as in every Python dict; lookup takes
    the first binding. *)

Inductive pyval : Type :=
| VNone
| VBool (b : bool)
| VNum (q : Q)
| VStr (s : string)
| VList (l : list pyval)
| VDict (d : list (string * pyval)).

Fixpoint assoc {A : Type} (k : string) (d : list (string * A)) : option A :=
  match d with
  | [] => None
  | (k', v) :: r => if String.eqb k k' then Some v else assoc k r
  end.

Definition bool_Q (b : bool) : Q := if b then 1%Q else 0%Q.

(** Python's [==] on decoded JSON ([True == 1], [1 == 1.0]; a str equals
    only a str). *)
Fixpoint py_eq (a b : pyval) {struct a} : bool :=
  match a, b with
  | VNone, VNone => true
  | VBool x, VBool y => Bool.eqb x y
  | VBool x, VNum q => Qeq_bool (bool_Q x) q
  | VNum p, VBool y => Qeq_bool p (bool_Q y)
  | VNum p, VNum q => Qeq_bool p q
  | VStr s, VStr t => String.eqb s t
  | VList l, VList m =>
      (fix all2 (l m : list pyval) {struct l} : bool :=
         match l, m with
         | [], [] => true
         | x :: l', y :: m' => py_eq x y && all2 l' m'
         | _, _ => false
         end) l m
  | VDict d, VDict e =>
      Nat.eqb (length d) (length e) &&
      (fix sub (d' : list (string * pyval)) : bool :=
         match d' with
         | [] => true
         | (k, v) :: r =>
             match assoc k e with
             | Some v' => py_eq v v'
             | None => false
             end && sub r
         end) d
  | _, _ => false
  end.

(** ** Exceptions *)

(** Modelled from the spec: [imouapi/exceptions.py] is not among the
    sources.  Section 7 of the spec gives one domain family,
    [ImouException], with the kinds InvalidResponse, APIError and
    NotConnected, each a subclass of the family; [__init__.py] also
    raises the bare base class. *)
Inductive ImouKind : Type :=
| Base
| InvalidResponse
| APIError
| NotConnected.

(** An exception in flight.  A domain exception carries the literal part
    of its message and the value formatted into it.  [NoSuchObject] is not
    a Python exception: it is the answer of the store to a reference that
    was never allocated, which no run starting from allocated objects
    meets. *)
Inductive exn : Type :=
| ImouException (kind : ImouKind) (text : string) (about : pyval)
| KeyError (key : pyval)
| IndexError
| TypeError
| AttributeError
| UnboundLocalError (name : string)
| NoSuchObject.

Inductive outcome (A : Type) : Type :=
| Ok (a : A)
| Raise (e : exn).
Arguments Ok {A} a.
Arguments Raise {A} e.

Definition obind {A B : Type} (r : outcome A) (k : A -> outcome B) : outcome B :=
  match r with
  | Ok a => k a
  | Raise e => Raise e
  end.

(** [except ImouException] and [except InvalidResponse]. *)
Definition is_ImouException (e : exn) : bool :=
  match e with
  | ImouException _ _ _ => true
  | _ => false
  end.

Definition is_InvalidResponse (e : exn) : bool :=
  match e with
  | ImouException InvalidResponse _ _ => true
  | _ => false
  end.

(** ** The operations of Python the code applies to a payload *)

Definition is_continuation (a : ascii) : bool :=
  let n := nat_of_ascii a in Nat.leb 128 n && Nat.ltb n 192.

Fixpoint chars_aux (s : string) : string * list string :=
  match s with
  | EmptyString => (EmptyString, [])
  | String a r =>
      let (p, cs) := chars_aux r in
      if is_continuation a then (String a p, cs) else (EmptyString, String a p :: cs)
  end.

(** The characters of a str: a byte that is not a continuation byte
    starts one. *)
Definition str_chars (s : string) : list string :=
  let (p, cs) := chars_aux s in
  match p with
  | EmptyString => cs
  | _ => p :: cs
  end.

Fixpoint is_substring (k s : string) : bool :=
  String.prefix k s ||
  match s with
  | EmptyString => false
  | String _ r => is_substring k r
  end.

(** [k in v] for a str [k]. *)
Definition py_contains (k : string) (v : pyval) : outcome bool :=
  match v with
  | VDict d => Ok (match assoc k d with Some _ => true | None => false end)
  | VList l => Ok (existsb (fun x => py_eq x (VStr k)) l)
  | VStr s => Ok (is_substring k s)
  | _ => Raise TypeError
  end.

(** [v[k]] for a str [k]. *)
Definition py_getitem (v : pyval) (k : string) : outcome pyval :=
  match v with
  | VDict d =>
      match assoc k d with
      | Some x => Ok x
      | None => Raise (KeyError (VStr k))
      end
  | _ => Raise TypeError
  end.

(** [v[0]]. *)
Definition py_getitem0 (v : pyval) : outcome pyval :=
  match v with
  | VList (x :: _) => Ok x
  | VList [] => Raise IndexError
  | VStr s =>
      match str_chars s with
      | c :: _ => Ok (VStr c)
      | [] => Raise IndexError
      end
  | VDict _ => Raise (KeyError (VNum 0))
  | _ => Raise TypeError
  end.

(** [len(v)]. *)
Definition py_len (v : pyval) : outcome nat :=
  match v with
  | VList l => Ok (length l)
  | VDict d => Ok (length d)
  | VStr s => Ok (length (str_chars s))
  | _ => Raise TypeError
  end.

(** [iter(v)], run to the end: the elements a [for] visits. *)
Definition py_iter (v : pyval) : outcome (list pyval) :=
  match v with
  | VList l => Ok l
  | VDict d => Ok (map (fun kv => VStr (fst kv)) d)
  | VStr s => Ok (map VStr (str_chars s))
  | _ => Raise TypeError
  end.

(** [v.get(k)]: only a dict has the method. *)
Definition py_get (v : pyval) (k : string) : outcome pyval :=
  match v with
  | VDict d =>
      match assoc k d with
      | Some x => Ok x
      | None => Ok VNone
      end
  | _ => Raise AttributeError
  end.

(** [next((c for c in l if p(c)), None)]: the first element that passes,
    the test being evaluated, and allowed to raise, on every element
    before it. *)
Fixpoint py_next (p : pyval -> outcome bool) (l : list pyval) : outcome (option pyval) :=
  match l with
  | [] => Ok None
  | c :: r =>
      match p c with
      | Raise e => Raise e
      | Ok true => Ok (Some c)
      | Ok false => py_next p r
      end
  end.

(** ** The tables of [imouapi/const.py] *)

Definition WAIT_AFTER_WAKE_UP : Q := 4%Q.
Definition CAMERA_WAIT_BEFORE_DOWNLOAD : Q := (3 # 2)%Q.

Definition ONLINE_STATUS : list (string * string) :=
  [ ("0", "Offline"); ("1", "Online"); ("4", "Dormant"); ("UNKNOWN", "Unknown") ].

Definition BUTTONS : list (string * string) :=
  [ ("restartDevice", "Restart device"); ("turnCollection", "Turn to") ].

Definition SENSORS : list (string * string) := [ ("status", "Status") ].

Definition SELECTS : list (string * string) :=
  [ ("turnCollection", "Turn to favourite point") ].

(** [v in TABLE]: a list or a dict is not hashable. *)
Definition table_contains (t : list (string * string)) (v : pyval) : outcome bool :=
  match v with
  | VStr s => Ok (match assoc s t with Some _ => true | None => false end)
  | VList _ | VDict _ => Raise TypeError
  | _ => Ok false
  end.

(** [TABLE[v]]. *)
Definition table_getitem (t : list (string * string)) (v : pyval) : outcome string :=
  match v with
  | VStr s =>
      match assoc s t with
      | Some x => Ok x
      | None => Raise (KeyError v)
      end
  | VList _ | VDict _ => Raise TypeError
  | _ => Raise (KeyError v)
  end.

(** ** Objects *)

(** A reference to a channel object, to an entity object. *)
Abbreviation chan_ref := nat (only parsing).
Abbreviation ent_ref := nat (only parsing).

(** The attributes of an [ImouCamChannel]; [ch_x] is [self._x].  The
    identifiers and the names are whatever the caller or the payload
    supplied. *)
Record ImouCamChannel : Type := {
  ch_device_id : pyval;
  ch_channel_id : pyval;
  ch_status : pyval;
  ch_channel_name : pyval;
  ch_device_name : pyval;
  ch_device_model : pyval;
  ch_full_name : string;
  ch_given_name : string;
  ch_collections : pyval;
  ch_sensor_instances : list (string * list ent_ref);
  ch_initialized : bool;
  ch_enabled : bool;
  ch_sleepable : bool;
  ch_wait_after_wakeup : Q;
  ch_camera_wait_before_download : Q
}.

(** What a subclass of [ImouEntity] adds to the base attributes. *)
Inductive EntityKind : Type :=
| ImouSensor (state : option string)
| ImouButton
| ImouSelect (current_option : pyval) (available_options : list pyval).

(** The attributes of an [ImouEntity]; [en_x] is [self._x]. *)
Record ImouEntity : Type := {
  en_device_id : pyval;
  en_channel_id : pyval;
  en_sensor_type : string;
  en_sensor_param : pyval;
  en_description : string;
  en_enabled : bool;
  en_updated : bool;
  en_device_instance : option chan_ref;
  en_attributes : list (string * string);
  en_kind : EntityKind
}.

Definition set_ch_status (v : pyval) (c : ImouCamChannel) : ImouCamChannel :=
  {| ch_device_id := ch_device_id c; ch_channel_id := ch_channel_id c;
     ch_status := v;
     ch_channel_name := ch_channel_name c; ch_device_name := ch_device_name c;
     ch_device_model := ch_device_model c; ch_full_name := ch_full_name c;
     ch_given_name := ch_given_name c; ch_collections := ch_collections c;
     ch_sensor_instances := ch_sensor_instances c;
     ch_initialized := ch_initialized c; ch_enabled := ch_enabled c;
     ch_sleepable := ch_sleepable c;
     ch_wait_after_wakeup := ch_wait_after_wakeup c;
     ch_camera_wait_before_download := ch_camera_wait_before_download c |}.

Definition set_ch_channel_name (v : pyval) (c : ImouCamChannel) : ImouCamChannel :=
  {| ch_device_id := ch_device_id c; ch_channel_id := ch_channel_id c;
     ch_status := ch_status c;
     ch_channel_name := v; ch_device_name := ch_device_name c;
     ch_device_model := ch_device_model c; ch_full_name := ch_full_name c;
     ch_given_name := ch_given_name c; ch_collections := ch_collections c;
     ch_sensor_instances := ch_sensor_instances c;
     ch_initialized := ch_initialized c; ch_enabled := ch_enabled c;
     ch_sleepable := ch_sleepable c;
     ch_wait_after_wakeup := ch_wait_after_wakeup c;
     ch_camera_wait_before_download := ch_camera_wait_before_download c |}.

Definition set_ch_device_name (v : pyval) (c : ImouCamChannel) : ImouCamChannel :=
  {| ch_device_id := ch_device_id c; ch_channel_id := ch_channel_id c;
     ch_status := ch_status c;
     ch_channel_name := ch_channel_name c; ch_device_name := v;
     ch_device_model := ch_device_model c; ch_full_name := ch_full_name c;
     ch_given_name := ch_given_name c; ch_collections := ch_collections c;
     ch_sensor_instances := ch_sensor_instances c;
     ch_initialized := ch_initialized c; ch_enabled := ch_enabled c;
     ch_sleepable := ch_sleepable c;
     ch_wait_after_wakeup := ch_wait_after_wakeup c;
     ch_camera_wait_before_download := ch_camera_wait_before_download c |}.

Definition set_ch_device_model (v : pyval) (c : ImouCamChannel) : ImouCamChannel :=
  {| ch_device_id := ch_device_id c; ch_channel_id := ch_channel_id c;
     ch_status := ch_status c;
     ch_channel_name := ch_channel_name c; ch_device_name := ch_device_name c;
     ch_device_model := v; ch_full_name := ch_full_name c;
     ch_given_name := ch_given_name c; ch_collections := ch_collections c;
     ch_sensor_instances := ch_sensor_instances c;
     ch_initialized := ch_initialized c; ch_enabled := ch_enabled c;
     ch_sleepable := ch_sleepable c;
     ch_wait_after_wakeup := ch_wait_after_wakeup c;
     ch_camera_wait_before_download := ch_camera_wait_before_download c |}.

Definition set_ch_full_name (v : string) (c : ImouCamChannel) : ImouCamChannel :=
  {| ch_device_id := ch_device_id c; ch_channel_id := ch_channel_id c;
     ch_status := ch_status c;
     ch_channel_name := ch_channel_name c; ch_device_name := ch_device_name c;
     ch_device_model := ch_device_model c; ch_full_name := v;
     ch_given_name := ch_given_name c; ch_collections := ch_collections c;
     ch_sensor_instances := ch_sensor_instances c;
     ch_initialized := ch_initialized c; ch_enabled := ch_enabled c;
     ch_sleepable := ch_sleepable c;
     ch_wait_after_wakeup := ch_wait_after_wakeup c;
     ch_camera_wait_before_download := ch_camera_wait_before_download c |}.

Definition set_ch_collections (v : pyval) (c : ImouCamChannel) : ImouCamChannel :=
  {| ch_device_id := ch_device_id c; ch_channel_id := ch_channel_id c;
     ch_status := ch_status c;
     ch_channel_name := ch_channel_name c; ch_device_name := ch_device_name c;
     ch_device_model := ch_device_model c; ch_full_name := ch_full_name c;
     ch_given_name := ch_given_name c; ch_collections := v;
     ch_sensor_instances := ch_sensor_instances c;
     ch_initialized := ch_initialized c; ch_enabled := ch_enabled c;
     ch_sleepable := ch_sleepable c;
     ch_wait_after_wakeup := ch_wait_after_wakeup c;
     ch_camera_wait_before_download := ch_camera_wait_before_download c |}.

Definition set_ch_sensor_instances (v : list (string * list ent_ref))
    (c : ImouCamChannel) : ImouCamChannel :=
  {| ch_device_id := ch_device_id c; ch_channel_id := ch_channel_id c;
     ch_status := ch_status c;
     ch_channel_name := ch_channel_name c; ch_device_name := ch_device_name c;
     ch_device_model := ch_device_model c; ch_full_name := ch_full_name c;
     ch_given_name := ch_given_name c; ch_collections := ch_collections c;
     ch_sensor_instances := v;
     ch_initialized := ch_initialized c; ch_enabled := ch_enabled c;
     ch_sleepable := ch_sleepable c;
     ch_wait_after_wakeup := ch_wait_after_wakeup c;
     ch_camera_wait_before_download := ch_camera_wait_before_download c |}.

Definition set_ch_initialized (v : bool) (c : ImouCamChannel) : ImouCamChannel :=
  {| ch_device_id := ch_device_id c; ch_channel_id := ch_channel_id c;
     ch_status := ch_status c;
     ch_channel_name := ch_channel_name c; ch_device_name := ch_device_name c;
     ch_device_model := ch_device_model c; ch_full_name := ch_full_name c;
     ch_given_name := ch_given_name c; ch_collections := ch_collections c;
     ch_sensor_instances := ch_sensor_instances c;
     ch_initialized := v; ch_enabled := ch_enabled c;
     ch_sleepable := ch_sleepable c;
     ch_wait_after_wakeup := ch_wait_after_wakeup c;
     ch_camera_wait_before_download := ch_camera_wait_before_download c |}.

Definition set_en_enabled (v : bool) (e : ImouEntity) : ImouEntity :=
  {| en_device_id := en_device_id e; en_channel_id := en_channel_id e;
     en_sensor_type := en_sensor_type e; en_sensor_param := en_sensor_param e;
     en_description := en_description e; en_enabled := v;
     en_updated := en_updated e;
     en_device_instance := en_device_instance e;
     en_attributes := en_attributes e; en_kind := en_kind e |}.

Definition set_ch_sleepable (v : bool) (c : ImouCamChannel) : ImouCamChannel :=
  {| ch_device_id := ch_device_id c; ch_channel_id := ch_channel_id c;
     ch_status := ch_status c;
     ch_channel_name := ch_channel_name c; ch_device_name := ch_device_name c;
     ch_device_model := ch_device_model c; ch_full_name := ch_full_name c;
     ch_given_name := ch_given_name c; ch_collections := ch_collections c;
     ch_sensor_instances := ch_sensor_instances c;
     ch_initialized := ch_initialized c; ch_enabled := ch_enabled c;
     ch_sleepable := v;
     ch_wait_after_wakeup := ch_wait_after_wakeup c;
     ch_camera_wait_before_download := ch_camera_wait_before_download c |}.

Definition set_ch_enabled (v : bool) (c : ImouCamChannel) : ImouCamChannel :=
  {| ch_device_id := ch_device_id c; ch_channel_id := ch_channel_id c;
     ch_status := ch_status c;
     ch_channel_name := ch_channel_name c; ch_device_name := ch_device_name c;
     ch_device_model := ch_device_model c; ch_full_name := ch_full_name c;
     ch_given_name := ch_given_name c; ch_collections := ch_collections c;
     ch_sensor_instances := ch_sensor_instances c;
     ch_initialized := ch_initialized c; ch_enabled := v;
     ch_sleepable := ch_sleepable c;
     ch_wait_after_wakeup := ch_wait_after_wakeup c;
     ch_camera_wait_before_download := ch_camera_wait_before_download c |}.

Definition set_en_updated (v : bool) (e : ImouEntity) : ImouEntity :=
  {| en_device_id := en_device_id e; en_channel_id := en_channel_id e;
     en_sensor_type := en_sensor_type e; en_sensor_param := en_sensor_param e;
     en_description := en_description e; en_enabled := en_enabled e;
     en_updated := v;
     en_device_instance := en_device_instance e;
     en_attributes := en_attributes e; en_kind := en_kind e |}.

Definition set_en_device_instance (v : option chan_ref) (e : ImouEntity) : ImouEntity :=
  {| en_device_id := en_device_id e; en_channel_id := en_channel_id e;
     en_sensor_type := en_sensor_type e; en_sensor_param := en_sensor_param e;
     en_description := en_description e; en_enabled := en_enabled e;
     en_updated := en_updated e;
     en_device_instance := v;
     en_attributes := en_attributes e; en_kind := en_kind e |}.

Definition set_en_kind (v : EntityKind) (e : ImouEntity) : ImouEntity :=
  {| en_device_id := en_device_id e; en_channel_id := en_channel_id e;
     en_sensor_type := en_sensor_type e; en_sensor_param := en_sensor_param e;
     en_description := en_description e; en_enabled := en_enabled e;
     en_updated := en_updated e;
     en_device_instance := en_device_instance e;
     en_attributes := en_attributes e; en_kind := v |}.

(** ** What the code does to the outside *)

(** A request to the API client, named after the method called. *)
Inductive ApiCall : Type :=
| async_api_deviceBaseList
| async_api_deviceBaseDetailList (device_ids : list pyval)
| async_api_deviceOnline (device_id : pyval)
| async_api_getCollection (device_id channel_id : pyval)
| async_api_setDeviceCameraStatus (device_id : pyval) (enable_type : string) (value : bool)
| async_api_turnCollection (device_id channel_id name : pyval)
| async_api_restartDevice (device_id : pyval).

Inductive Level : Type := DEBUG | WARNING | ERROR.

(** One entry of the trace: a request issued, [asyncio.sleep], a record
    handed to the logger (its literal text), a record that formats an
    exception. *)
Inductive Event : Type :=
| Call (c : ApiCall)
| Sleep (seconds : Q)
| Log (lvl : Level) (text : string)
| LogExc (lvl : Level) (text : string) (e : exn).

(** ** The monad of coroutines

    A computation over a state [S] returns or raises, and leaves a state
    either way. *)

Definition M (S A : Type) : Type := S -> outcome A * S.

Definition ret {S A : Type} (a : A) : M S A := fun s => (Ok a, s).

Definition raise {S A : Type} (e : exn) : M S A := fun s => (Raise e, s).

Definition bind {S A B : Type} (m : M S A) (k : A -> M S B) : M S B :=
  fun s =>
    match m s with
    | (Ok a, s') => k a s'
    | (Raise e, s') => (Raise e, s')
    end.

(** A step of pure Python that may raise. *)
Definition lift {S A : Type} (r : outcome A) : M S A := fun s => (r, s).

(** [try: m  except <matches> as e: h e]. *)
Definition try_except {S A : Type} (m : M S A) (matches : exn -> bool)
    (h : exn -> M S A) : M S A :=
  fun s =>
    match m s with
    | (Ok a, s') => (Ok a, s')
    | (Raise e, s') => if matches e then h e s' else (Raise e, s')
    end.

Declare Scope prog_scope.
Delimit Scope prog_scope with prog.
Notation "x <- m ;; k" := (bind m (fun x => k))
  (at level 100, m at next level, k at level 200, right associativity) : prog_scope.
Notation "m ;; k" := (bind m (fun _ => k))
  (at level 100, k at level 200, right associativity) : prog_scope.
Local Open Scope prog_scope.

(** [for x in l: body x]. *)
Fixpoint for_each {S A : Type} (l : list A) (body : A -> M S unit) : M S unit :=
  match l with
  | [] => ret tt
  | x :: r => body x ;; for_each r body
  end.

(** [d[k] = v] on an insertion-ordered dict. *)
Fixpoint dict_set {A : Type} (k : string) (v : A) (d : list (string * A)) : list (string * A) :=
  match d with
  | [] => [(k, v)]
  | (k', v') :: r => if String.eqb k k' then (k, v) :: r else (k', v') :: dict_set k v r
  end.

Section Program.

(** The cloud behind the API client: its state, and how it answers a
    request.  [api.py] is an external collaborator; a request may return
    any payload or raise any exception. *)
Variable Cloud : Type.
Variable api_client : ApiCall -> Cloud -> outcome pyval * Cloud.

(** [str(v)] for a value that is not a str, as an f-string formats it. *)
Variable py_str : pyval -> string.

Definition fstr (v : pyval) : string :=
  match v with
  | VStr s => s
  | _ => py_str v
  end.

(** The store: the cloud, the channel and entity objects by reference,
    and the trace so far (oldest event first). *)
Record World : Type := {
  cloud : Cloud;
  channels : list ImouCamChannel;
  entities : list ImouEntity;
  trace : list Event
}.

Definition emit (ev : Event) : M World unit :=
  fun w =>
    (Ok tt, {| cloud := cloud w; channels := channels w; entities := entities w;
               trace := (trace w ++ [ev])%list |}).

(** [await self._api_client.<method>(...)]: the request is recorded, the
    cloud answers and moves on. *)
Definition await_api (c : ApiCall) : M World pyval :=
  fun w =>
    let (r, cl) := api_client c (cloud w) in
    (r, {| cloud := cl; channels := channels w; entities := entities w;
           trace := (trace w ++ [Call c])%list |}).

(** [await asyncio.sleep(seconds)]. *)
Definition asyncio_sleep (seconds : Q) : M World unit := emit (Sleep seconds).

Definition get_channel (r : chan_ref) : M World ImouCamChannel :=
  fun w =>
    match channels w !! r with
    | Some c => (Ok c, w)
    | None => (Raise NoSuchObject, w)
    end.

Definition modify_channel (r : chan_ref) (f : ImouCamChannel -> ImouCamChannel) : M World unit :=
  fun w =>
    match channels w !! r with
    | Some c =>
        (Ok tt, {| cloud := cloud w; channels := <[r := f c]> (channels w);
                   entities := entities w; trace := trace w |})
    | None => (Raise NoSuchObject, w)
    end.

Definition new_channel (c : ImouCamChannel) : M World chan_ref :=
  fun w =>
    (Ok (length (channels w)),
     {| cloud := cloud w; channels := (channels w ++ [c])%list;
        entities := entities w; trace := trace w |}).

Definition get_entity (r : ent_ref) : M World ImouEntity :=
  fun w =>
    match entities w !! r with
    | Some e => (Ok e, w)
    | None => (Raise NoSuchObject, w)
    end.

Definition modify_entity (r : ent_ref) (f : ImouEntity -> ImouEntity) : M World unit :=
  fun w =>
    match entities w !! r with
    | Some e =>
        (Ok tt, {| cloud := cloud w; channels := channels w;
                   entities := <[r := f e]> (entities w); trace := trace w |})
    | None => (Raise NoSuchObject, w)
    end.

Definition new_entity (e : ImouEntity) : M World ent_ref :=
  fun w =>
    (Ok (length (entities w)),
     {| cloud := cloud w; channels := channels w;
        entities := (entities w ++ [e])%list; trace := trace w |}).

(** ** [ImouEntity] and its subclasses: construction *)

(** [ImouEntity.__init__]. *)
Definition ImouEntity_init (device_id channel_id : pyval) (sensor_type : string)
    (sensor_param : pyval) (sensor_description : string) (k : EntityKind) : ImouEntity :=
  {| en_device_id := device_id;
     en_channel_id := channel_id;
     en_sensor_type := sensor_type;
     en_sensor_param := sensor_param;
     en_description := sensor_description;
     en_enabled := true;
     en_updated := false;
     en_device_instance := None;
     en_attributes := [];
     en_kind := k |}.

(** [ImouSensor.__init__]: the description is
    [f"{SENSORS[sensor_type]} {sensor_param}"]. *)
Definition ImouSensor_init (device_id channel_id : pyval) (sensor_type : string)
    (sensor_param : pyval) : outcome ImouEntity :=
  obind (table_getitem SENSORS (VStr sensor_type)) (fun d =>
    Ok (ImouEntity_init device_id channel_id sensor_type sensor_param
          (d ++ " " ++ fstr sensor_param) (ImouSensor None))).

(** [ImouButton.__init__]. *)
Definition ImouButton_init (device_id channel_id : pyval) (sensor_type : string)
    (sensor_param : pyval) : outcome ImouEntity :=
  obind (table_getitem BUTTONS (VStr sensor_type)) (fun d =>
    Ok (ImouEntity_init device_id channel_id sensor_type sensor_param
          (d ++ " " ++ fstr sensor_param) ImouButton)).

(** [ImouSelect.__init__]. *)
Definition ImouSelect_init (device_id channel_id : pyval) (sensor_type : string)
    (sensor_param : pyval) : outcome ImouEntity :=
  obind (table_getitem SELECTS (VStr sensor_type)) (fun d =>
    Ok (ImouEntity_init device_id channel_id sensor_type sensor_param
          (d ++ " " ++ fstr sensor_param) (ImouSelect VNone []))).

(** ** [ImouCamChannel] *)

(** [ImouCamChannel.__init__]. *)
Definition ImouCamChannel_init (device_id channel_id : pyval) : ImouCamChannel :=
  {| ch_device_id := device_id;
     ch_channel_id := channel_id;
     ch_status := VStr "unknown";
     ch_channel_name := VStr "N.A";
     ch_device_name := VStr "N.A";
     ch_device_model := VStr "N.A";
     ch_full_name := "N.A";
     ch_given_name := EmptyString;
     ch_collections := VList [];
     ch_sensor_instances := [ ("sensor", []); ("button", []); ("select", []) ];
     ch_initialized := false;
     ch_enabled := true;
     ch_sleepable := false;
     ch_wait_after_wakeup := WAIT_AFTER_WAKE_UP;
     ch_camera_wait_before_download := CAMERA_WAIT_BEFORE_DOWNLOAD |}.

Definition get_name (c : ImouCamChannel) : string :=
  if negb (String.eqb (ch_given_name c) EmptyString) then ch_given_name c else ch_full_name c.

Definition get_status (c : ImouCamChannel) : pyval := ch_status c.

Definition get_sleepable (c : ImouCamChannel) : bool := ch_sleepable c.

(** [ONLINE_STATUS[self._status] == "Online" or
     ONLINE_STATUS[self._status] == "Dormant"]. *)
Definition is_online (c : ImouCamChannel) : outcome bool :=
  obind (table_getitem ONLINE_STATUS (ch_status c)) (fun a =>
    if String.eqb a "Online" then Ok true
    else obind (table_getitem ONLINE_STATUS (ch_status c)) (fun b =>
      Ok (String.eqb b "Dormant"))).

(** [instance.set_device(self)], then
    [self._sensor_instances[platform].append(instance)]. *)
Definition _add_sensor_instance (self : chan_ref) (platform : string)
    (instance : ent_ref) : M World unit :=
  modify_entity instance (set_en_device_instance (Some self)) ;;
  me <- get_channel self ;;
  match assoc platform (ch_sensor_instances me) with
  | None => raise (KeyError (VStr platform))
  | Some l =>
      modify_channel self
        (set_ch_sensor_instances (dict_set platform (l ++ [instance])%list (ch_sensor_instances me)))
  end.

(** [c.get("channelId") == channel_id], the filter of
    [async_refresh_status]; [c["channelId"] == channel_id], the filter of
    [async_initialize] and of [ImouSensor.async_update]. *)
Definition get_channelId_is (channel_id c : pyval) : outcome bool :=
  obind (py_get c "channelId") (fun i => Ok (py_eq i channel_id)).

Definition channelId_is (channel_id c : pyval) : outcome bool :=
  obind (py_getitem c "channelId") (fun i => Ok (py_eq i channel_id)).

(** ["deviceList" not in v or len(v["deviceList"]) != 1]. *)
Definition device_list_not_single (v : pyval) : outcome bool :=
  obind (py_contains "deviceList" v) (fun has =>
    if negb has then Ok true
    else obind (py_getitem v "deviceList") (fun dl =>
      obind (py_len dl) (fun n => Ok (negb (Nat.eqb n 1))))).

(** The body of the [try] of [async_initialize]. *)
Definition async_initialize_body (self : chan_ref) : M World unit :=
  me <- get_channel self ;;
  device_array <- await_api (async_api_deviceBaseDetailList [ch_device_id me]) ;;
  bad <- lift (device_list_not_single device_array) ;;
  (if bad : bool
   then raise (ImouException InvalidResponse "deviceList not found in " device_array)
   else ret tt) ;;
  device_data <- lift (obind (py_getitem device_array "deviceList") py_getitem0) ;;
  name <- lift (py_getitem device_data "name") ;;
  modify_channel self (set_ch_device_name name) ;;
  model <- lift (py_getitem device_data "deviceModel") ;;
  modify_channel self (set_ch_device_model model) ;;
  chans <- lift (obind (py_getitem device_data "channels") py_iter) ;;
  channel_data <- lift (py_next (channelId_is (ch_channel_id me)) chans) ;;
  match channel_data with
  | None => raise (ImouException InvalidResponse " invalid channel id " (ch_channel_id me))
  | Some cd =>
      channel_name <- lift (py_getitem cd "channelName") ;;
      modify_channel self (set_ch_channel_name channel_name) ;;
      modify_channel self (fun c =>
        set_ch_full_name (fstr (ch_device_name c) ++ " - " ++ fstr (ch_channel_name c)) c) ;;
      emit (Log DEBUG "Retrieved channel: %s") ;;
      favourites <-
        await_api (async_api_getCollection (ch_device_id me) (ch_channel_id me)) ;;
      lift (obind (py_getitem favourites "collections") py_len) ;;
      emit (Log DEBUG "found {len} collection points") ;;
      collections <- lift (py_getitem favourites "collections") ;;
      modify_channel self (set_ch_collections collections) ;;
      sensor <- lift (ImouSensor_init (ch_device_id me) (ch_channel_id me) "status" (VStr EmptyString)) ;;
      r <- new_entity sensor ;;
      _add_sensor_instance self "sensor" r ;;
      button <-
        lift (ImouButton_init (ch_device_id me) (ch_channel_id me) "restartDevice" (VStr EmptyString)) ;;
      r <- new_entity button ;;
      _add_sensor_instance self "button" r ;;
      items <- lift (py_iter collections) ;;
      for_each items (fun collection =>
        name <- lift (py_getitem collection "name") ;;
        button <-
          lift (ImouButton_init (ch_device_id me) (ch_channel_id me) "turnCollection" name) ;;
        r <- new_entity button ;;
        _add_sensor_instance self "button" r) ;;
      select <-
        lift (ImouSelect_init (ch_device_id me) (ch_channel_id me) "turnCollection" (VStr EmptyString)) ;;
      r <- new_entity select ;;
      _add_sensor_instance self "select" r
  end.

(** [async_initialize]: the body under [except ImouException], which logs
    the exception; then [self._initialized = True]. *)
Definition async_initialize (self : chan_ref) : M World unit :=
  try_except (async_initialize_body self) is_ImouException
    (fun e => emit (LogExc ERROR "Exception: " e)) ;;
  modify_channel self (set_ch_initialized true).

(** [not (k in v)], then [v[k] not in ONLINE_STATUS] only when the key is
    there: the test of both guards of [async_refresh_status]. *)
Definition code_not_valid (v : pyval) : outcome bool :=
  obind (py_contains "onLine" v) (fun has =>
    if negb has then Ok true
    else obind (py_getitem v "onLine") (fun code =>
      obind (table_contains ONLINE_STATUS code) (fun known => Ok (negb known)))).

Definition async_refresh_status (self : chan_ref) : M World unit :=
  me <- get_channel self ;;
  device_data <- await_api (async_api_deviceOnline (ch_device_id me)) ;;
  bad <- lift (code_not_valid device_data) ;;
  (if bad : bool
   then raise (ImouException InvalidResponse "onLine not valid in " device_data)
   else ret tt) ;;
  chans <- lift (obind (py_getitem device_data "channels") py_iter) ;;
  channel_data <- lift (py_next (get_channelId_is (ch_channel_id me)) chans) ;;
  match channel_data with
  | None => raise (ImouException InvalidResponse "onLine not valid in " VNone)
  | Some cd =>
      bad <- lift (code_not_valid cd) ;;
      if bad : bool
      then raise (ImouException InvalidResponse "onLine not valid in " cd)
      else
        code <- lift (py_getitem cd "onLine") ;;
        modify_channel self (set_ch_status code)
  end.

(** [ONLINE_STATUS[self._status] == "Online"], the test [async_wakeup]
    makes after each refresh. *)
Definition status_is_Online (self : chan_ref) : M World bool :=
  me <- get_channel self ;;
  label <- lift (table_getitem ONLINE_STATUS (ch_status me)) ;;
  ret (String.eqb label "Online").

Definition async_wakeup (self : chan_ref) : M World bool :=
  me <- get_channel self ;;
  if negb (ch_sleepable me) then ret true
  else
    async_refresh_status self ;;
    online <- status_is_Online self ;;
    if online : bool then ret true
    else
      emit (Log DEBUG "[%s] waking up the dormant device") ;;
      await_api (async_api_setDeviceCameraStatus (ch_device_id me) "closeDormant" true) ;;
      me <- get_channel self ;;
      asyncio_sleep (ch_wait_after_wakeup me) ;;
      async_refresh_status self ;;
      online <- status_is_Online self ;;
      if online : bool
      then emit (Log DEBUG "[%s] device is now online") ;; ret true
      else emit (Log WARNING "[%s] failed to wake up dormant device") ;; ret false.

Definition async_get_data (self : chan_ref) : M World bool :=
  me <- get_channel self ;;
  if negb (ch_enabled me) then ret false
  else
    (if negb (ch_initialized me) then async_initialize self else ret tt) ;;
    emit (Log DEBUG "[%s] update requested") ;;
    async_refresh_status self ;;
    ret true.

(** ** [ImouEntity]: the readiness gate *)

Definition _async_is_ready (self : ent_ref) : M World bool :=
  me <- get_entity self ;;
  if negb (en_enabled me) then ret false
  else
    match en_device_instance me with
    | Some device =>
        awake <- async_wakeup device ;;
        if awake : bool then ret true else ret false
    | None => ret true
    end.

(** [if not self._updated: self._updated = True]. *)
Definition mark_updated (self : ent_ref) : M World unit :=
  me <- get_entity self ;;
  if negb (en_updated me) then modify_entity self (set_en_updated true) else ret tt.

(** ** [ImouSensor] *)

(** The sensor object at a reference; a reference to an object of
    another class is no sensor. *)
Definition get_sensor (self : ent_ref) : M World ImouEntity :=
  me <- get_entity self ;;
  match en_kind me with
  | ImouSensor _ => ret me
  | _ => raise NoSuchObject
  end.

(** [self._state = ONLINE_STATUS[code]]. *)
Definition set_state_of (self : ent_ref) (code : pyval) : M World unit :=
  label <- lift (table_getitem ONLINE_STATUS code) ;;
  modify_entity self (set_en_kind (ImouSensor (Some label))).

Definition ImouSensor_async_update (self : ent_ref) : M World unit :=
  ready <- _async_is_ready self ;;
  if negb ready then ret tt
  else
    me <- get_sensor self ;;
    (if String.eqb (en_sensor_type me) "status"
     then
       device_data <- await_api (async_api_deviceOnline (en_device_id me)) ;;
       has <- lift (py_contains "onLine" device_data) ;;
       if negb has
       then raise (ImouException InvalidResponse "onLine not found in " device_data)
       else
         code <- lift (py_getitem device_data "onLine") ;;
         known <- lift (table_contains ONLINE_STATUS code) ;;
         if known : bool
         then
           chans <- lift (obind (py_getitem device_data "channels") py_iter) ;;
           channel_data <- lift (py_next (channelId_is (en_channel_id me)) chans) ;;
           match channel_data with
           | Some cd =>
               channel_code <- lift (py_getitem cd "onLine") ;;
               known <- lift (table_contains ONLINE_STATUS channel_code) ;;
               if known : bool
               then
                 channel_code <- lift (py_getitem cd "onLine") ;;
                 set_state_of self channel_code
               else set_state_of self (VStr "UNKNOWN")
           | None => set_state_of self (VStr "UNKNOWN")
           end
         else set_state_of self (VStr "UNKNOWN")
     else ret tt) ;;
    emit (Log DEBUG "[%s] updating %s, value is %s") ;;
    mark_updated self.

Definition get_state (e : ImouEntity) : option string :=
  match en_kind e with
  | ImouSensor st => st
  | _ => None
  end.

(** ** [ImouButton] *)

Definition ImouButton_async_press (self : ent_ref) : M World unit :=
  ready <- _async_is_ready self ;;
  if negb ready then ret tt
  else
    me <- get_entity self ;;
    (if String.eqb (en_sensor_type me) "restartDevice"
     then await_api (async_api_restartDevice (en_device_id me)) ;; ret tt
     else if String.eqb (en_sensor_type me) "turnCollection"
     then
       await_api (async_api_turnCollection (en_device_id me) (en_channel_id me)
                    (en_sensor_param me)) ;;
       ret tt
     else ret tt) ;;
    emit (Log DEBUG "[%s] pressed button %s") ;;
    mark_updated self.

Definition ImouButton_async_update (self : ent_ref) : M World unit := ret tt.

(** ** [ImouSelect] *)

(** The placeholder that [async_update] puts at index 0 of the options. *)
Definition SENTINEL : string := "⬇ Select a point ⬇".

(** The select object at a reference. *)
Definition get_select (self : ent_ref) : M World ImouEntity :=
  me <- get_entity self ;;
  match en_kind me with
  | ImouSelect _ _ => ret me
  | _ => raise NoSuchObject
  end.

Definition get_current_option (e : ImouEntity) : pyval :=
  match en_kind e with
  | ImouSelect current _ => current
  | _ => VNone
  end.

Definition get_available_options (e : ImouEntity) : list pyval :=
  match en_kind e with
  | ImouSelect _ available => available
  | _ => []
  end.

(** [l[0]] on a Python list. *)
Definition list_getitem0 (l : list pyval) : outcome pyval :=
  match l with
  | x :: _ => Ok x
  | [] => Raise IndexError
  end.

(** [[f(c) for c in l]]. *)
Fixpoint list_comprehension (f : pyval -> outcome pyval) (l : list pyval)
    : outcome (list pyval) :=
  match l with
  | [] => Ok []
  | c :: r =>
      obind (f c) (fun x => obind (list_comprehension f r) (fun xs => Ok (x :: xs)))
  end.

Definition ImouSelect_async_update (self : ent_ref) : M World unit :=
  ready <- _async_is_ready self ;;
  if negb ready then ret tt
  else
    me <- get_select self ;;
    (if String.eqb (en_sensor_type me) "turnCollection"
     then
       favourites <-
         await_api (async_api_getCollection (en_device_id me) (en_channel_id me)) ;;
       lift (obind (py_getitem favourites "collections") py_len) ;;
       emit (Log DEBUG "found {len} collection points") ;;
       items <- lift (obind (py_getitem favourites "collections") py_iter) ;;
       names <- lift (list_comprehension (fun c => py_getitem c "name") items) ;;
       let collections := VStr SENTINEL :: names in
       modify_entity self (fun e =>
         set_en_kind (ImouSelect (get_current_option e) collections) e) ;;
       me <- get_select self ;;
       first <- lift (list_getitem0 (get_available_options me)) ;;
       modify_entity self (fun e =>
         set_en_kind (ImouSelect first (get_available_options e)) e)
     else ret tt) ;;
    emit (Log DEBUG "[%s] updating %s, value is %s %s") ;;
    mark_updated self.

Definition ImouSelect_async_select_option (self : ent_ref) (option : pyval) : M World unit :=
  me <- get_select self ;;
  first <- lift (list_getitem0 (get_available_options me)) ;;
  if py_eq option first then ret tt
  else
    ready <- _async_is_ready self ;;
    if negb ready then ret tt
    else
      emit (Log DEBUG "[%s] %s setting to %s") ;;
      if String.eqb (en_sensor_type me) "turnCollection"
      then
        await_api (async_api_turnCollection (en_device_id me) (en_channel_id me) option) ;;
        me <- get_select self ;;
        first <- lift (list_getitem0 (get_available_options me)) ;;
        modify_entity self (fun e =>
          set_en_kind (ImouSelect first (get_available_options e)) e)
      else ret tt.

(** ** [ImouDiscoverService] *)

(** The frame of [async_discover_channels]: its local [channels], a dict
    from channel name to channel object, unbound until assigned. *)
Definition Frame : Type := option (list (string * chan_ref)).

(** A step that does not touch the frame. *)
Definition in_world {A : Type} (m : M World A) : M (Frame * World) A :=
  fun s =>
    let (r, w) := m (snd s) in (r, (fst s, w)).

(** [channels = d]. *)
Definition assign_channels (d : list (string * chan_ref)) : M (Frame * World) unit :=
  fun s => (Ok tt, (Some d, snd s)).

(** Reading the local [channels]. *)
Definition read_channels : M (Frame * World) (list (string * chan_ref)) :=
  fun s =>
    match fst s with
    | Some d => (Ok d, s)
    | None => (Raise (UnboundLocalError "channels"), s)
    end.

(** ["deviceList" not in v or "count" not in v]. *)
Definition device_list_or_count_missing (v : pyval) : outcome bool :=
  obind (py_contains "deviceList" v) (fun has =>
    if negb has then Ok true
    else obind (py_contains "count" v) (fun has => Ok (negb has))).

(** The body of the [try] of [async_discover_channels]. *)
Definition async_discover_channels_body : M (Frame * World) unit :=
  devices_data <- in_world (await_api async_api_deviceBaseList) ;;
  bad <- lift (device_list_or_count_missing devices_data) ;;
  (if bad : bool
   then raise (ImouException InvalidResponse "deviceList or count not found in " devices_data)
   else ret tt) ;;
  lift (py_getitem devices_data "count") ;;
  in_world (emit (Log DEBUG "Discovered %d registered devices")) ;;
  assign_channels [] ;;
  devices <- lift (obind (py_getitem devices_data "deviceList") py_iter) ;;
  for_each devices (fun device_data =>
    device_id <- lift (py_getitem device_data "deviceId") ;;
    device_detailed_data_array <-
      in_world (await_api (async_api_deviceBaseDetailList [device_id])) ;;
    bad <- lift (device_list_not_single device_detailed_data_array) ;;
    (if bad : bool
     then raise (ImouException InvalidResponse "deviceList not found in "
                   device_detailed_data_array)
     else ret tt) ;;
    device_detailed_data <-
      lift (obind (py_getitem device_detailed_data_array "deviceList") py_getitem0) ;;
    chans <- lift (obind (py_getitem device_detailed_data "channels") py_iter) ;;
    for_each chans (fun channel_data =>
      device_id <- lift (py_getitem channel_data "deviceId") ;;
      channel_id <- lift (py_getitem channel_data "channelId") ;;
      channel <- in_world (new_channel (ImouCamChannel_init device_id channel_id)) ;;
      in_world (async_initialize channel) ;;
      me <- in_world (get_channel channel) ;;
      d <- read_channels ;;
      assign_channels (dict_set (get_name me) channel d))).

(** [async_discover_channels]: the body under [except InvalidResponse]
    (a warning) and, for the rest of the family, [except ImouException]
    (an error); then [return channels]. *)
Definition async_discover_channels : M World (list (string * chan_ref)) :=
  fun w =>
    let (r, s) :=
      (in_world (emit (Log DEBUG "Starting discovery")) ;;
       try_except async_discover_channels_body is_ImouException
         (fun e =>
            if is_InvalidResponse e
            then in_world
                   (emit (LogExc WARNING "Skipping unrecognized or unsupported device: " e))
            else in_world (emit (LogExc ERROR "Exception: " e))) ;;
       read_channels) (None, w) in
    (r, snd s).

(** ** [ImouCamChannel]: its entities by platform and by name *)

(** [get_all_sensors]: the instances of every platform, in the order of
    the dict. *)
Definition get_all_sensors (c : ImouCamChannel) : list ent_ref :=
  List.concat (List.map snd (ch_sensor_instances c)).

Definition get_sensors_by_platform (platform : string) (c : ImouCamChannel) : list ent_ref :=
  match assoc platform (ch_sensor_instances c) with
  | None => []
  | Some l => l
  end.

(** [ImouEntity.get_name]: [f"{self._sensor_type} {self._sensor_param}"]. *)
Definition ImouEntity_get_name (e : ImouEntity) : string :=
  en_sensor_type e ++ " " ++ fstr (en_sensor_param e).

(** [sensor_instance.channel_name]: neither [ImouEntity] nor a subclass
    of it defines the attribute. *)
Definition getattr_channel_name (e : ImouEntity) : outcome pyval := Raise AttributeError.

(** The loops of [get_sensor_by_name] over the instances: the first one
    with [get_name() == type and channel_name == name]. *)
Fixpoint scan_by_name (type name : pyval) (l : list ent_ref) : M World (option ent_ref) :=
  match l with
  | [] => ret None
  | r :: rest =>
      e <- get_entity r ;;
      if py_eq (VStr (ImouEntity_get_name e)) type
      then
        channel_name <- lift (getattr_channel_name e) ;;
        if py_eq channel_name name then ret (Some r) else scan_by_name type name rest
      else scan_by_name type name rest
  end.

Definition get_sensor_by_name (self : chan_ref) (type name : pyval) : M World (option ent_ref) :=
  me <- get_channel self ;;
  scan_by_name type name (get_all_sensors me).

(** ** [ImouDataUpdateCoordinator] *)

(** How one polling cycle ends for the host: the value of
    [async_get_data]; the host's UpdateFailed, raised from a domain
    exception; or another exception, which the coordinator lets through. *)
Inductive cycle_result : Type :=
| Returned (b : bool)
| UpdateFailed (cause : exn)
| Propagated (e : exn).

(** [_async_update_data]: [async_get_data] under [except ImouException],
    which logs the exception and raises UpdateFailed from it. *)
Definition _async_update_data (channel : chan_ref) : World -> cycle_result * World :=
  fun w =>
    match async_get_data channel w with
    | (Ok b, w') => (Returned b, w')
    | (Raise e, w') =>
        if is_ImouException e
        then
          (UpdateFailed e,
           {| cloud := cloud w'; channels := channels w'; entities := entities w';
              trace := (trace w' ++ [LogExc ERROR EmptyString e])%list |})
        else (Propagated e, w')
    end.

End Program.

Arguments World Cloud : clear implicits.
Arguments cloud {Cloud} w.
Arguments channels {Cloud} w.
Arguments entities {Cloud} w.
Arguments trace {Cloud} w.
Arguments emit {Cloud} ev w.
Arguments await_api {Cloud} api_client c w.
Arguments asyncio_sleep {Cloud} seconds w.
Arguments get_channel {Cloud} r w.
Arguments modify_channel {Cloud} r f w.
Arguments new_channel {Cloud} c w.
Arguments get_entity {Cloud} r w.
Arguments modify_entity {Cloud} r f w.
Arguments new_entity {Cloud} e w.
Arguments _add_sensor_instance {Cloud} self platform instance w.
Arguments async_initialize_body {Cloud} api_client py_str self w.
Arguments async_initialize {Cloud} api_client py_str self w.
Arguments async_refresh_status {Cloud} api_client self w.
Arguments status_is_Online {Cloud} self w.
Arguments async_wakeup {Cloud} api_client self w.
Arguments async_get_data {Cloud} api_client py_str self w.
Arguments _async_is_ready {Cloud} api_client self w.
Arguments mark_updated {Cloud} self w.
Arguments get_sensor {Cloud} self w.
Arguments set_state_of {Cloud} self code w.
Arguments ImouSensor_async_update {Cloud} api_client self w.
Arguments ImouButton_async_press {Cloud} api_client self w.
Arguments ImouButton_async_update {Cloud} self w.
Arguments get_select {Cloud} self w.
Arguments ImouSelect_async_update {Cloud} api_client self w.
Arguments ImouSelect_async_select_option {Cloud} api_client self option w.
Arguments in_world {Cloud A} m s.
Arguments assign_channels {Cloud} d s.
Arguments read_channels {Cloud} s.
Arguments async_discover_channels_body {Cloud} api_client py_str s.
Arguments async_discover_channels {Cloud} api_client py_str w.
Arguments scan_by_name {Cloud} py_str type name l w.
Arguments get_sensor_by_name {Cloud} py_str self type name w.
Arguments _async_update_data {Cloud} api_client py_str channel w.

(** ** Observations on a run *)

(** What the code did to the outside, the log records left out: the
    requests to the API client and the sleeps, in order. *)
Definition is_action (ev : Event) : bool :=
  match ev with
  | Call _ | Sleep _ => true
  | Log _ _ | LogExc _ _ _ => false
  end.

Definition actions (t : list Event) : list Event := List.filter is_action t.

(** A computation keeps a relation between the state it starts from and
    the state it leaves, however it ends. *)
Definition keeps {S A : Type} (R : S -> S -> Prop) (m : M S A) : Prop :=
  forall s r s', m s = (r, s') -> R s s'.

(** No entity object is written or created. *)
Definition same_entities {Cloud : Type} (w w' : World Cloud) : Prop :=
  entities w' = entities w.

(** No channel object disappears. *)
Definition channels_stay {Cloud : Type} (w w' : World Cloud) : Prop :=
  length (channels w) <= length (channels w').

(** What no operation writes on a channel: its identifiers, its enabled
    and sleep-capable flags, its given name and its two delays. *)
Definition channel_kept (c c' : ImouCamChannel) : Prop :=
  ch_device_id c' = ch_device_id c /\
  ch_channel_id c' = ch_channel_id c /\
  ch_enabled c' = ch_enabled c /\
  ch_sleepable c' = ch_sleepable c /\
  ch_given_name c' = ch_given_name c /\
  ch_wait_after_wakeup c' = ch_wait_after_wakeup c /\
  ch_camera_wait_before_download c' = ch_camera_wait_before_download c.

(** The initialized flag of a channel is as it was. *)
Definition flag_kept (c c' : ImouCamChannel) : Prop :=
  ch_initialized c' = ch_initialized c.

(** Every channel object is still there, and related to what it was. *)
Definition channels_related {Cloud : Type} (P : ImouCamChannel -> ImouCamChannel -> Prop)
    (w w' : World Cloud) : Prop :=
  forall (r : nat) (c : ImouCamChannel),
    channels w !! r = Some c ->
    exists c', channels w' !! r = Some c' /\ P c c'.

(** No channel object is sleep-capable. *)
Definition no_sleeper {Cloud : Type} (w : World Cloud) : Prop :=
  forall (r : nat) (c : ImouCamChannel), channels w !! r = Some c -> ch_sleepable c = false.

(** The camera-status commands (the close-dormant command is the only
    one the code sends) of a trace. *)
Definition is_wake_command (ev : Event) : bool :=
  match ev with
  | Call (async_api_setDeviceCameraStatus _ _ _) => true
  | _ => false
  end.

Definition wake_commands (t : list Event) : list Event := List.filter is_wake_command t.

(** From a world without a sleep-capable channel: there is still none,
    and no camera-status command was sent. *)
Definition no_wake {Cloud : Type} (w w' : World Cloud) : Prop :=
  no_sleeper w ->
  no_sleeper w' /\ wake_commands (trace w') = wake_commands (trace w).

(** The entities that [async_initialize] builds for a channel, as
    [_add_sensor_instance] leaves them, attribute by attribute: the
    status sensor, the restart button, the button of a preset, the
    select. *)
Definition built_sensor (self : nat) (device_id channel_id : pyval) : ImouEntity :=
  {| en_device_id := device_id;
     en_channel_id := channel_id;
     en_sensor_type := "status";
     en_sensor_param := VStr EmptyString;
     en_description := "Status ";
     en_enabled := true;
     en_updated := false;
     en_device_instance := Some self;
     en_attributes := [];
     en_kind := ImouSensor None |}.

Definition built_restart_button (self : nat) (device_id channel_id : pyval) : ImouEntity :=
  {| en_device_id := device_id;
     en_channel_id := channel_id;
     en_sensor_type := "restartDevice";
     en_sensor_param := VStr EmptyString;
     en_description := "Restart device ";
     en_enabled := true;
     en_updated := false;
     en_device_instance := Some self;
     en_attributes := [];
     en_kind := ImouButton |}.

Definition built_preset_button (py_str : pyval -> string) (self : nat)
    (device_id channel_id name : pyval) : ImouEntity :=
  {| en_device_id := device_id;
     en_channel_id := channel_id;
     en_sensor_type := "turnCollection";
     en_sensor_param := name;
     en_description := "Turn to " ++ fstr py_str name;
     en_enabled := true;
     en_updated := false;
     en_device_instance := Some self;
     en_attributes := [];
     en_kind := ImouButton |}.

Definition built_select (self : nat) (device_id channel_id : pyval) : ImouEntity :=
  {| en_device_id := device_id;
     en_channel_id := channel_id;
     en_sensor_type := "turnCollection";
     en_sensor_param := VStr EmptyString;
     en_description := "Turn to favourite point ";
     en_enabled := true;
     en_updated := false;
     en_device_instance := Some self;
     en_attributes := [];
     en_kind := ImouSelect VNone [] |}.

(** A channel after a successful [async_initialize], attribute by
    attribute: the names, the model, the presets and the entities are
    new, the flag is True, the rest is as it was. *)
Definition initialized_from (me : ImouCamChannel) (device_name device_model channel_name : pyval)
    (full_name : string) (collections : pyval) (instances : list (string * list nat))
    : ImouCamChannel :=
  {| ch_device_id := ch_device_id me;
     ch_channel_id := ch_channel_id me;
     ch_status := ch_status me;
     ch_channel_name := channel_name;
     ch_device_name := device_name;
     ch_device_model := device_model;
     ch_full_name := full_name;
     ch_given_name := ch_given_name me;
     ch_collections := collections;
     ch_sensor_instances := instances;
     ch_initialized := true;
     ch_enabled := ch_enabled me;
     ch_sleepable := ch_sleepable me;
     ch_wait_after_wakeup := ch_wait_after_wakeup me;
     ch_camera_wait_before_download := ch_camera_wait_before_download me |}.

(** A world with the given objects and nothing done yet. *)
Definition start {Cloud : Type} (c : Cloud) (chs : list ImouCamChannel)
    (ens : list ImouEntity) : World Cloud :=
  {| cloud := c; channels := chs; entities := ens; trace := [] |}.

(** ** Clouds for the worked runs *)

(** The runs below format strs only; [str()] of another value is never
    asked for. *)
Definition no_str (v : pyval) : string := EmptyString.

(** A cloud that refuses every request with an APIError. *)
Definition refusing_cloud (c : ApiCall) (u : unit) : outcome pyval * unit :=
  (Raise (ImouException APIError "refused" VNone), u).

(** The online payload of the scenario of the spec: top-level code "1",
    one channel "0" with code "4". *)
Definition online_1_4 : pyval :=
  VDict [ ("onLine", VStr "1");
          ("channels", VList [ VDict [ ("channelId", VStr "0"); ("onLine", VStr "4") ] ]) ].

Definition cloud_1_4 (c : ApiCall) (u : unit) : outcome pyval * unit :=
  match c with
  | async_api_deviceOnline _ => (Ok online_1_4, u)
  | _ => (Raise (ImouException APIError "refused" VNone), u)
  end.

(** A cloud whose online payload lacks the top-level code. *)
Definition cloud_no_code (c : ApiCall) (u : unit) : outcome pyval * unit :=
  match c with
  | async_api_deviceOnline _ =>
      (Ok (VDict [ ("channels", VList [ VDict [ ("channelId", VStr "0"); ("onLine", VStr "1") ] ]) ]), u)
  | _ => (Raise (ImouException APIError "refused" VNone), u)
  end.

(** A cloud whose online payload carries a code outside the table. *)
Definition cloud_code_7 (c : ApiCall) (u : unit) : outcome pyval * unit :=
  match c with
  | async_api_deviceOnline _ =>
      (Ok (VDict [ ("onLine", VStr "7");
                   ("channels", VList [ VDict [ ("channelId", VStr "0"); ("onLine", VStr "1") ] ]) ]), u)
  | _ => (Raise (ImouException APIError "refused" VNone), u)
  end.

(** A cloud whose online payload carries a channel code outside the
    table. *)
Definition cloud_channel_code_9 (c : ApiCall) (u : unit) : outcome pyval * unit :=
  match c with
  | async_api_deviceOnline _ =>
      (Ok (VDict [ ("onLine", VStr "1");
                   ("channels", VList [ VDict [ ("channelId", VStr "0"); ("onLine", VStr "9") ] ]) ]), u)
  | _ => (Raise (ImouException APIError "refused" VNone), u)
  end.

(** A cloud whose detail lookup comes back without a device list. *)
Definition cloud_no_device_list (c : ApiCall) (u : unit) : outcome pyval * unit :=
  match c with
  | async_api_deviceBaseDetailList _ => (Ok (VDict []), u)
  | _ => (Raise (ImouException APIError "refused" VNone), u)
  end.

(** A dormant camera: the cloud state tells whether it was woken; the
    close-dormant command wakes it. *)
Definition dormant_cloud (c : ApiCall) (awake : bool) : outcome pyval * bool :=
  match c with
  | async_api_deviceOnline _ =>
      (Ok (VDict [ ("onLine", VStr "1");
                   ("channels",
                    VList [ VDict [ ("channelId", VStr "0");
                                    ("onLine", VStr (if awake then "1" else "4")) ] ]) ]),
       awake)
  | async_api_setDeviceCameraStatus _ _ _ => (Ok VNone, true)
  | _ => (Raise (ImouException APIError "refused" VNone), awake)
  end.

(** Three registered devices; the detail lookup of the second comes back
    without its device list. *)
Definition registered (id : string) : pyval := VDict [ ("deviceId", VStr id) ].

Definition detail (id name : string) : pyval :=
  VDict [ ("deviceList",
           VList [ VDict [ ("deviceId", VStr id); ("name", VStr name);
                           ("deviceModel", VStr "X1");
                           ("channels",
                            VList [ VDict [ ("deviceId", VStr id); ("channelId", VStr "0");
                                            ("channelName", VStr "Cam") ] ]) ] ]) ].

Definition cloud_three_devices (c : ApiCall) (u : unit) : outcome pyval * unit :=
  match c with
  | async_api_deviceBaseList =>
      (Ok (VDict [ ("count", VNum 3);
                   ("deviceList", VList [ registered "D1"; registered "D2"; registered "D3" ]) ]), u)
  | async_api_deviceBaseDetailList [VStr "D1"] => (Ok (detail "D1" "Home1"), u)
  | async_api_deviceBaseDetailList [VStr "D2"] => (Ok (VDict []), u)
  | async_api_deviceBaseDetailList [VStr "D3"] => (Ok (detail "D3" "Home3"), u)
  | async_api_getCollection _ _ => (Ok (VDict [ ("collections", VList []) ]), u)
  | _ => (Raise (ImouException APIError "refused" VNone), u)
  end.

(** The same three devices; the detail lookup of the second is refused
    with an APIError. *)
Definition cloud_second_refused (c : ApiCall) (u : unit) : outcome pyval * unit :=
  match c with
  | async_api_deviceBaseDetailList [VStr "D2"] =>
      (Raise (ImouException APIError "refused" VNone), u)
  | _ => cloud_three_devices c u
  end.

(** A home with one camera, channel "0", and two presets; every command
    is accepted. *)
Definition presets_door_gate : pyval :=
  VDict [ ("collections",
           VList [ VDict [ ("name", VStr "door") ]; VDict [ ("name", VStr "gate") ] ]) ].

Definition home_cloud (c : ApiCall) (u : unit) : outcome pyval * unit :=
  match c with
  | async_api_deviceBaseList =>
      (Ok (VDict [ ("count", VNum 1); ("deviceList", VList [ registered "D1" ]) ]), u)
  | async_api_deviceBaseDetailList _ => (Ok (detail "D1" "Home"), u)
  | async_api_deviceOnline _ => (Ok online_1_4, u)
  | async_api_getCollection _ _ => (Ok presets_door_gate, u)
  | async_api_setDeviceCameraStatus _ _ _ => (Ok VNone, u)
  | async_api_turnCollection _ _ _ => (Ok VNone, u)
  | async_api_restartDevice _ => (Ok VNone, u)
  end.

(** An account with no device; a list payload without its count. *)
Definition cloud_no_devices (c : ApiCall) (u : unit) : outcome pyval * unit :=
  match c with
  | async_api_deviceBaseList =>
      (Ok (VDict [ ("count", VNum 0); ("deviceList", VList []) ]), u)
  | _ => (Raise (ImouException APIError "refused" VNone), u)
  end.

Definition cloud_no_count (c : ApiCall) (u : unit) : outcome pyval * unit :=
  match c with
  | async_api_deviceBaseList => (Ok (VDict [ ("deviceList", VList []) ]), u)
  | _ => (Raise (ImouException APIError "refused" VNone), u)
  end.

(** Online payloads: without the "channels" key; with the record of
    another channel only. *)
Definition cloud_no_channels (c : ApiCall) (u : unit) : outcome pyval * unit :=
  match c with
  | async_api_deviceOnline _ => (Ok (VDict [ ("onLine", VStr "1") ]), u)
  | _ => (Raise (ImouException APIError "refused" VNone), u)
  end.

Definition cloud_other_channel (c : ApiCall) (u : unit) : outcome pyval * unit :=
  match c with
  | async_api_deviceOnline _ =>
      (Ok (VDict [ ("onLine", VStr "1");
                   ("channels", VList [ VDict [ ("channelId", VStr "9"); ("onLine", VStr "1") ] ]) ]), u)
  | _ => (Raise (ImouException APIError "refused" VNone), u)
  end.

(** A detail payload whose device record has no name; a preset list
    whose record has no name. *)
Definition cloud_nameless_device (c : ApiCall) (u : unit) : outcome pyval * unit :=
  match c with
  | async_api_deviceBaseDetailList _ => (Ok (VDict [ ("deviceList", VList [ VDict [] ]) ]), u)
  | _ => (Raise (ImouException APIError "refused" VNone), u)
  end.

Definition cloud_nameless_preset (c : ApiCall) (u : unit) : outcome pyval * unit :=
  match c with
  | async_api_getCollection _ _ => (Ok (VDict [ ("collections", VList [ VDict [] ]) ]), u)
  | _ => (Raise (ImouException APIError "refused" VNone), u)
  end.

(** A channel as the constructor leaves it, and one made sleep-capable. *)
Definition fresh_channel : ImouCamChannel := ImouCamChannel_init (VStr "D1") (VStr "0").

Definition sleepable_channel : ImouCamChannel := set_ch_sleepable true fresh_channel.

(** A status sensor and a select as [async_initialize] builds them, not
    attached to a channel. *)
Definition status_sensor : ImouEntity :=
  ImouEntity_init (VStr "D1") (VStr "0") "status" (VStr EmptyString) "Status " (ImouSensor None).

Definition fresh_select : ImouEntity :=
  ImouEntity_init (VStr "D1") (VStr "0") "turnCollection" (VStr EmptyString)
    "Turn to favourite point " (ImouSelect VNone []).

Definition updated_select : ImouEntity :=
  set_en_kind (ImouSelect (VStr SENTINEL) [VStr SENTINEL; VStr "door"]) fresh_select.

(** A channel already initialized; a channel that lists the entity 0 as
    its sensor; a restart button attached to no channel. *)
Definition initialized_channel : ImouCamChannel := set_ch_initialized true fresh_channel.

Definition channel_with_sensor : ImouCamChannel :=
  set_ch_sensor_instances [ ("sensor", [0]); ("button", []); ("select", []) ] fresh_channel.

Definition restart_button : ImouEntity :=
  ImouEntity_init (VStr "D1") (VStr "0") "restartDevice" (VStr EmptyString)
    "Restart device " ImouButton.

(** * Properties *)

Section Properties.

Context {Cloud : Type}.
Variable api_client : ApiCall -> Cloud -> outcome pyval * Cloud.

Implicit Types (w : World Cloud) (self : nat).

Variable py_str : pyval -> string.

(** ** The monad *)

Lemma bind_Ok {S A B : Type} (m : M S A) (k : A -> M S B) (s s' : S) (a : A) :
  m s = (Ok a, s') -> bind m k s = k a s'.
Proof. intros H. unfold bind. now rewrite H. Qed.

Lemma bind_Raise {S A B : Type} (m : M S A) (k : A -> M S B) (s s' : S) (e : exn) :
  m s = (Raise e, s') -> bind m k s = (Raise e, s').
Proof. intros H. unfold bind. now rewrite H. Qed.

Lemma get_channel_Some w self (me : ImouCamChannel) :
  channels w !! self = Some me -> get_channel self w = (Ok me, w).
Proof. intros H. unfold get_channel. now rewrite H. Qed.

Lemma get_entity_Some w self (me : ImouEntity) :
  entities w !! self = Some me -> get_entity self w = (Ok me, w).
Proof. intros H. unfold get_entity. now rewrite H. Qed.

Lemma get_select_Some w self (me : ImouEntity) current available :
  entities w !! self = Some me ->
  en_kind me = ImouSelect current available ->
  get_select self w = (Ok me, w).
Proof.
  intros H K. unfold get_select.
  rewrite (bind_Ok _ _ _ _ _ (get_entity_Some _ _ _ H)).
  now rewrite K.
Qed.

(** ** [is_online] before any refresh *)

(** C5.  [is_online()] on a channel as the constructor leaves it raises
    KeyError: the constructor's status is the lowercase "unknown", and
    the keys of ONLINE_STATUS are "0", "1", "4" and "UNKNOWN" only. *)
Theorem is_online_fresh_channel_KeyError (device_id channel_id : pyval) :
  get_status (ImouCamChannel_init device_id channel_id) = VStr "unknown" /\
  List.map fst ONLINE_STATUS = ["0"; "1"; "4"; "UNKNOWN"] /\
  is_online (ImouCamChannel_init device_id channel_id) = Raise (KeyError (VStr "unknown")).
Proof. repeat split. Qed.

(** ** [async_wakeup] on a channel that does not sleep *)

(** C10.  On a channel that is not sleep-capable, [async_wakeup] returns
    True and leaves the world as it was: no request reaches the API
    client (no status refresh, no wake command), nothing is slept. *)
Theorem wakeup_not_sleepable_returns_true w self (me : ImouCamChannel) :
  channels w !! self = Some me ->
  ch_sleepable me = false ->
  async_wakeup api_client self w = (Ok true, w).
Proof.
  intros Hme Hs. unfold async_wakeup.
  rewrite (bind_Ok _ _ _ _ _ (get_channel_Some _ _ _ Hme)).
  now rewrite Hs.
Qed.

(** ** [async_select_option] *)

(** C8.  When the options are not empty and the argument equals the one
    at index 0, [async_select_option] returns at once: no request, and
    the select (current option, options, updated flag) and everything
    else stay as they were. *)
Theorem select_option_sentinel_is_noop w self (me : ImouEntity)
    (current first : pyval) (rest : list pyval) (option : pyval) :
  entities w !! self = Some me ->
  en_kind me = ImouSelect current (first :: rest) ->
  py_eq option first = true ->
  ImouSelect_async_select_option api_client self option w = (Ok tt, w).
Proof.
  intros Hme Hk Heq. unfold ImouSelect_async_select_option.
  rewrite (bind_Ok _ _ _ _ _ (get_select_Some _ _ _ _ _ Hme Hk)).
  unfold get_available_options. rewrite Hk. cbn [list_getitem0].
  unfold bind at 1, lift at 1. now rewrite Heq.
Qed.

(** C9.  When the options are empty, the comparison with the option at
    index 0 raises IndexError, whatever the argument and whether the
    entity is enabled or not; nothing else happens. *)
Theorem select_option_empty_IndexError w self (me : ImouEntity)
    (current option : pyval) :
  entities w !! self = Some me ->
  en_kind me = ImouSelect current [] ->
  ImouSelect_async_select_option api_client self option w = (Raise IndexError, w).
Proof.
  intros Hme Hk. unfold ImouSelect_async_select_option.
  rewrite (bind_Ok _ _ _ _ _ (get_select_Some _ _ _ _ _ Hme Hk)).
  unfold get_available_options. rewrite Hk. reflexivity.
Qed.

(** ** What a computation keeps *)

Section Keeps.

Context {S : Type} (R : S -> S -> Prop).
Hypothesis R_refl : forall s, R s s.
Hypothesis R_trans : forall s1 s2 s3, R s1 s2 -> R s2 s3 -> R s1 s3.

Lemma keeps_ret {A : Type} (a : A) : keeps R (ret a).
Proof. intros s r s' H. inversion H. apply R_refl. Qed.

Lemma keeps_raise {A : Type} (e : exn) : keeps R (@raise S A e).
Proof. intros s r s' H. inversion H. apply R_refl. Qed.

Lemma keeps_lift {A : Type} (o : outcome A) : keeps R (lift o).
Proof. intros s r s' H. inversion H. apply R_refl. Qed.

Lemma keeps_bind {A B : Type} (m : M S A) (k : A -> M S B) :
  keeps R m -> (forall a, keeps R (k a)) -> keeps R (bind m k).
Proof.
  intros Hm Hk s r s' H. unfold bind in H.
  destruct (m s) as [[a|e] s1] eqn:E.
  - eapply R_trans; [exact (Hm _ _ _ E) | exact (Hk _ _ _ _ H)].
  - inversion H; subst. exact (Hm _ _ _ E).
Qed.

Lemma keeps_try_except {A : Type} (m : M S A) (matches : exn -> bool) (h : exn -> M S A) :
  keeps R m -> (forall e, keeps R (h e)) -> keeps R (try_except m matches h).
Proof.
  intros Hm Hh s r s' H. unfold try_except in H.
  destruct (m s) as [[a|e] s1] eqn:E.
  - inversion H; subst. exact (Hm _ _ _ E).
  - destruct (matches e).
    + eapply R_trans; [exact (Hm _ _ _ E) | exact (Hh _ _ _ _ H)].
    + inversion H; subst. exact (Hm _ _ _ E).
Qed.

Lemma keeps_for_each {A : Type} (l : list A) (body : A -> M S unit) :
  (forall x, keeps R (body x)) -> keeps R (for_each l body).
Proof.
  intros Hb. induction l as [|x l IH]; cbn [for_each].
  - apply keeps_ret.
  - apply keeps_bind; [apply Hb | intros _; exact IH].
Qed.

End Keeps.

(** Breaks a composite computation into its steps. *)
Ltac keeps_steps refl trans :=
  repeat first
    [ apply (keeps_bind _ trans); [| intros ?]
    | apply (keeps_ret _ refl)
    | apply (keeps_raise _ refl)
    | apply (keeps_lift _ refl)
    | apply (keeps_for_each _ refl trans); intros ?
    | apply (keeps_try_except _ trans); [| intros ?]
    | match goal with
      | |- keeps _ (if ?b then _ else _) => destruct b
      | |- keeps _ (match ?x with _ => _ end) => destruct x
      end ].

Lemma same_entities_refl w : same_entities w w.
Proof. reflexivity. Qed.

Lemma same_entities_trans w1 w2 w3 :
  same_entities w1 w2 -> same_entities w2 w3 -> same_entities w1 w3.
Proof. unfold same_entities. congruence. Qed.

Lemma channels_stay_refl w : channels_stay w w.
Proof. unfold channels_stay. lia. Qed.

Lemma channels_stay_trans w1 w2 w3 :
  channels_stay w1 w2 -> channels_stay w2 w3 -> channels_stay w1 w3.
Proof. unfold channels_stay. lia. Qed.

Lemma emit_same_entities ev : keeps same_entities (emit (Cloud := Cloud) ev).
Proof. intros w r w' H. inversion H. reflexivity. Qed.

Lemma await_api_same_entities c : keeps same_entities (await_api api_client c).
Proof.
  intros w r w' H. unfold await_api in H.
  destruct (api_client c (cloud w)). inversion H. reflexivity.
Qed.

Lemma get_channel_same_entities self : keeps same_entities (get_channel (Cloud := Cloud) self).
Proof.
  intros w r w' H. unfold get_channel in H.
  destruct (channels w !! self); inversion H; reflexivity.
Qed.

Lemma modify_channel_same_entities self f :
  keeps same_entities (modify_channel (Cloud := Cloud) self f).
Proof.
  intros w r w' H. unfold modify_channel in H.
  destruct (channels w !! self); inversion H; reflexivity.
Qed.

Lemma emit_channels_stay ev : keeps channels_stay (emit (Cloud := Cloud) ev).
Proof. intros w r w' H. inversion H. unfold channels_stay. cbn. lia. Qed.

Lemma await_api_channels_stay c : keeps channels_stay (await_api api_client c).
Proof.
  intros w r w' H. unfold await_api in H.
  destruct (api_client c (cloud w)). inversion H. unfold channels_stay. cbn. lia.
Qed.

Lemma get_channel_channels_stay self : keeps channels_stay (get_channel (Cloud := Cloud) self).
Proof.
  intros w r w' H. unfold get_channel in H.
  destruct (channels w !! self); inversion H; subst; apply channels_stay_refl.
Qed.

Lemma modify_channel_channels_stay self f :
  keeps channels_stay (modify_channel (Cloud := Cloud) self f).
Proof.
  intros w r w' H. unfold modify_channel in H.
  destruct (channels w !! self); inversion H; subst.
  - unfold channels_stay. cbn. rewrite length_insert. lia.
  - apply channels_stay_refl.
Qed.

Lemma get_entity_channels_stay self : keeps channels_stay (get_entity (Cloud := Cloud) self).
Proof.
  intros w r w' H. unfold get_entity in H.
  destruct (entities w !! self); inversion H; subst; apply channels_stay_refl.
Qed.

Lemma modify_entity_channels_stay self f :
  keeps channels_stay (modify_entity (Cloud := Cloud) self f).
Proof.
  intros w r w' H. unfold modify_entity in H.
  destruct (entities w !! self); inversion H; subst; unfold channels_stay; cbn; lia.
Qed.

Lemma new_entity_channels_stay e : keeps channels_stay (new_entity (Cloud := Cloud) e).
Proof. intros w r w' H. inversion H. unfold channels_stay. cbn. lia. Qed.

Lemma initialize_body_channels_stay self :
  keeps channels_stay (async_initialize_body api_client py_str self).
Proof.
  unfold async_initialize_body.
  keeps_steps channels_stay_refl channels_stay_trans;
    auto using get_channel_channels_stay, modify_channel_channels_stay,
      await_api_channels_stay, emit_channels_stay, new_entity_channels_stay,
      modify_entity_channels_stay.
Qed.

Lemma refresh_status_same_entities self :
  keeps same_entities (async_refresh_status api_client self).
Proof.
  unfold async_refresh_status.
  keeps_steps same_entities_refl same_entities_trans;
    auto using get_channel_same_entities, modify_channel_same_entities,
      await_api_same_entities.
Qed.

Lemma status_is_Online_same_world self w r w' :
  status_is_Online self w = (r, w') -> w' = w.
Proof.
  unfold status_is_Online, bind, get_channel, lift, ret. intros H.
  destruct (channels w !! self); [|now inversion H].
  destruct (table_getitem ONLINE_STATUS _); now inversion H.
Qed.

Lemma wakeup_same_entities self : keeps same_entities (async_wakeup api_client self).
Proof.
  unfold async_wakeup, asyncio_sleep.
  keeps_steps same_entities_refl same_entities_trans;
    auto using get_channel_same_entities, modify_channel_same_entities,
      await_api_same_entities, emit_same_entities.
Qed.

Lemma is_ready_same_entities self : keeps same_entities (_async_is_ready api_client self).
Proof.
  unfold _async_is_ready.
  apply (keeps_bind _ same_entities_trans).
  - intros w r w' H. unfold get_entity in H.
    destruct (entities w !! self); inversion H; reflexivity.
  - intros me.
    keeps_steps same_entities_refl same_entities_trans;
      unfold asyncio_sleep;
      auto using get_channel_same_entities, modify_channel_same_entities,
        await_api_same_entities, emit_same_entities.
Qed.

(** ** One refresh *)

Lemma actions_app (t u : list Event) : actions (t ++ u) = (actions t ++ actions u)%list.
Proof. apply List.filter_app. Qed.

Lemma set_ch_status_same (me : ImouCamChannel) : set_ch_status (ch_status me) me = me.
Proof. now destruct me. Qed.

(** However a refresh ends, it has sent one status request and written
    at most the status of its channel. *)
Lemma refresh_status_effect w self (me : ImouCamChannel) r w' :
  channels w !! self = Some me ->
  async_refresh_status api_client self w = (r, w') ->
  trace w' = (trace w ++ [Call (async_api_deviceOnline (ch_device_id me))])%list /\
  exists st, channels w' !! self = Some (set_ch_status st me).
Proof.
  intros Hme H. unfold async_refresh_status in H.
  rewrite (bind_Ok _ _ _ _ _ (get_channel_Some _ _ _ Hme)) in H.
  unfold bind, await_api, lift, raise, ret, modify_channel in H. cbn in H.
  assert (Hsame : exists st, channels w !! self = Some (set_ch_status st me))
    by (exists (ch_status me); now rewrite set_ch_status_same).
  destruct (api_client _ (cloud w)) as [[d|e] cl]; cbn in H.
  - repeat (try rewrite Hme in H; cbn in H;
            match type of H with
            | context [match ?x with _ => _ end] =>
                lazymatch type of x with
                | prod _ _ => fail
                | _ => destruct x
                end
            end);
      try rewrite Hme in H; cbn in H;
      inversion H; subst; cbn; split; auto.
    eexists. apply list_lookup_insert_eq. eapply lookup_lt_Some; eassumption.
  - inversion H; subst; cbn. split; auto.
Qed.

(** ** [async_wakeup] on a sleeping channel *)

(** C7, as the code has it.  On a sleep-capable channel whose refreshed
    status is not Online, one call of [async_wakeup] sends exactly one
    close-dormant command, and what follows depends on that command.
    When it returns, the call does to the outside exactly this, in this
    order: the status request of the refresh, the one command, one sleep
    of the configured settle delay, one status request for the re-check;
    whatever the re-check answers, there is no second command and no
    second sleep.  When it raises, nothing is caught: the exception
    leaves [async_wakeup] after the status request and the one command,
    with no sleep and no re-check. *)
Theorem wakeup_one_command_one_wait w self (me : ImouCamChannel) w1 (r : outcome pyval)
    (cl : Cloud) :
  channels w !! self = Some me ->
  ch_sleepable me = true ->
  async_refresh_status api_client self w = (Ok tt, w1) ->
  status_is_Online self w1 = (Ok false, w1) ->
  api_client (async_api_setDeviceCameraStatus (ch_device_id me) "closeDormant" true)
    (cloud w1) = (r, cl) ->
  match r with
  | Ok _ =>
      actions (trace (snd (async_wakeup api_client self w))) =
        (actions (trace w) ++
         [ Call (async_api_deviceOnline (ch_device_id me));
           Call (async_api_setDeviceCameraStatus (ch_device_id me) "closeDormant" true);
           Sleep (ch_wait_after_wakeup me);
           Call (async_api_deviceOnline (ch_device_id me)) ])%list
  | Raise e =>
      fst (async_wakeup api_client self w) = Raise e /\
      actions (trace (snd (async_wakeup api_client self w))) =
        (actions (trace w) ++
         [ Call (async_api_deviceOnline (ch_device_id me));
           Call (async_api_setDeviceCameraStatus (ch_device_id me) "closeDormant" true) ])%list
  end.
Proof.
  intros Hme Hs Hrefresh Honline Hcmd.
  destruct (refresh_status_effect _ _ _ _ _ Hme Hrefresh) as [Ht1 [st Hme1]].
  destruct r as [reply|e].
  - unfold async_wakeup.
    rewrite (bind_Ok _ _ _ _ _ (get_channel_Some _ _ _ Hme)). rewrite Hs. cbn [negb].
    rewrite (bind_Ok _ _ _ _ _ Hrefresh).
    rewrite (bind_Ok _ _ _ _ _ Honline).
    unfold bind at 1, emit at 1.
    unfold bind at 1, await_api at 1. cbn [cloud]. rewrite Hcmd.
    unfold bind at 1, get_channel at 1. cbn [channels]. rewrite Hme1.
    unfold bind at 1, asyncio_sleep at 1, emit at 1.
    cbn [ch_wait_after_wakeup set_ch_status cloud channels entities trace].
    match goal with
    | |- context [bind (async_refresh_status _ _) _ ?w2] => set (w1c := w2)
    end.
    assert (Hme1c : channels w1c !! self = Some (set_ch_status st me)) by exact Hme1.
    unfold bind at 1.
    destruct (async_refresh_status api_client self w1c) as [[[]|e] w2] eqn:Hsecond;
      destruct (refresh_status_effect _ _ _ _ _ Hme1c Hsecond) as [Ht2 _];
      cbn [ch_device_id set_ch_status] in Ht2.
    + unfold bind at 1.
      destruct (status_is_Online self w2) as [[[|]|e] w3] eqn:Hre;
        apply status_is_Online_same_world in Hre; subst w3;
        cbn [bind emit ret snd trace]; rewrite Ht2; subst w1c; cbn [trace]; rewrite Ht1;
        rewrite !actions_app; cbn; rewrite <- !app_assoc;
        rewrite ?app_nil_r; reflexivity.
    + cbn [snd]. rewrite Ht2. subst w1c. cbn [trace]. rewrite Ht1.
      rewrite !actions_app. cbn. rewrite <- !app_assoc.
      reflexivity.
  - assert (E : exists w2,
               async_wakeup api_client self w = (Raise e, w2) /\
               trace w2 =
                 (trace w1 ++
                  [ Log DEBUG "[%s] waking up the dormant device";
                    Call (async_api_setDeviceCameraStatus (ch_device_id me)
                            "closeDormant" true) ])%list).
    { unfold async_wakeup.
      rewrite (bind_Ok _ _ _ _ _ (get_channel_Some _ _ _ Hme)). rewrite Hs. cbn [negb].
      rewrite (bind_Ok _ _ _ _ _ Hrefresh).
      rewrite (bind_Ok _ _ _ _ _ Honline).
      unfold bind at 1, emit at 1.
      unfold bind at 1, await_api at 1. cbn [cloud]. rewrite Hcmd.
      eexists. split; [reflexivity|]. cbn [trace]. now rewrite <- app_assoc. }
    destruct E as [w2 [E Ht2]]. rewrite E. cbn [fst snd]. split; [reflexivity|].
    rewrite Ht2, Ht1. rewrite !actions_app. cbn. now rewrite <- !app_assoc.
Qed.

(** ** [async_initialize] *)

(** C4.  When the body of [async_initialize] raises a domain exception
    (any kind of ImouException), [async_initialize] returns normally:
    the exception is logged as an error and not propagated, and in the
    world it returns the initialized flag of the channel reads True;
    the rest of the channel, and of the world, is as the body left it. *)
Theorem initialize_swallows_domain_exception w self (me : ImouCamChannel)
    (kind : ImouKind) (text : string) (about : pyval) w1 :
  channels w !! self = Some me ->
  async_initialize_body api_client py_str self w =
    (Raise (ImouException kind text about), w1) ->
  exists me1,
    channels w1 !! self = Some me1 /\
    async_initialize api_client py_str self w =
      (Ok tt,
       {| cloud := cloud w1;
          channels := <[self := set_ch_initialized true me1]> (channels w1);
          entities := entities w1;
          trace := (trace w1 ++
                    [LogExc ERROR "Exception: " (ImouException kind text about)])%list |}) /\
    (ch_initialized <$>
       channels (snd (async_initialize api_client py_str self w)) !! self) = Some true.
Proof.
  intros Hme Hbody.
  assert (Hlt : self < length (channels w1)).
  { pose proof (initialize_body_channels_stay self _ _ _ Hbody) as Hstay.
    unfold channels_stay in Hstay. apply lookup_lt_Some in Hme. lia. }
  destruct (lookup_lt_is_Some_2 _ _ Hlt) as [me1 Hme1].
  exists me1. split; [exact Hme1|].
  assert (Hrun : async_initialize api_client py_str self w =
                 (Ok tt,
                  {| cloud := cloud w1;
                     channels := <[self := set_ch_initialized true me1]> (channels w1);
                     entities := entities w1;
                     trace := (trace w1 ++
                               [LogExc ERROR "Exception: "
                                  (ImouException kind text about)])%list |})).
  { unfold async_initialize, bind, try_except. rewrite Hbody.
    cbn [is_ImouException]. unfold emit, modify_channel. cbn [channels].
    now rewrite Hme1. }
  split; [exact Hrun|].
  rewrite Hrun. cbn [snd channels].
  rewrite (list_lookup_insert_eq _ _ _ Hlt). reflexivity.
Qed.

(** The guard of [async_initialize] fires when the device list is absent
    and when it has not exactly one element. *)
Lemma device_list_absent (d : pyval) :
  py_contains "deviceList" d = Ok false -> device_list_not_single d = Ok true.
Proof. intros H. unfold device_list_not_single. now rewrite H. Qed.

Lemma getitem_contains (d : pyval) (k : string) (x : pyval) :
  py_getitem d k = Ok x -> py_contains k d = Ok true.
Proof.
  destruct d; cbn; try discriminate.
  destruct (assoc k d); [reflexivity | discriminate].
Qed.

Lemma device_list_not_one_element (d : pyval) (l : list pyval) :
  py_getitem d "deviceList" = Ok (VList l) ->
  length l <> 1 ->
  device_list_not_single d = Ok true.
Proof.
  intros H Hl. unfold device_list_not_single.
  rewrite (getitem_contains _ _ _ H), H. cbn.
  destruct (Nat.eqb_spec (length l) 1); [contradiction | reflexivity].
Qed.

Lemma await_api_eq w (c : ApiCall) (r : outcome pyval) (cl : Cloud) :
  api_client c (cloud w) = (r, cl) ->
  await_api api_client c w =
    (r, {| cloud := cl; channels := channels w; entities := entities w;
           trace := (trace w ++ [Call c])%list |}).
Proof. intros H. unfold await_api. now rewrite H. Qed.

(** With a bad device list the body raises InvalidResponse right after
    the lookup. *)
Lemma initialize_body_bad_device_list w self (me : ImouCamChannel) (d : pyval) (cl : Cloud) :
  channels w !! self = Some me ->
  api_client (async_api_deviceBaseDetailList [ch_device_id me]) (cloud w) = (Ok d, cl) ->
  device_list_not_single d = Ok true ->
  async_initialize_body api_client py_str self w =
    (Raise (ImouException InvalidResponse "deviceList not found in " d),
     {| cloud := cl; channels := channels w; entities := entities w;
        trace := (trace w ++
                  [Call (async_api_deviceBaseDetailList [ch_device_id me])])%list |}).
Proof.
  intros Hme Hapi Hbad. unfold async_initialize_body.
  rewrite (bind_Ok _ _ _ _ _ (get_channel_Some _ _ _ Hme)).
  rewrite (bind_Ok _ _ _ _ _ (await_api_eq _ _ _ _ Hapi)).
  unfold bind at 1, lift at 1. rewrite Hbad. reflexivity.
Qed.

(** When no record of the device carries this channel's id the body
    raises InvalidResponse as well. *)
Lemma initialize_body_channel_not_found w self (me : ImouCamChannel) (d : pyval) (cl : Cloud)
    (device_data name model : pyval) (chans : list pyval) :
  channels w !! self = Some me ->
  api_client (async_api_deviceBaseDetailList [ch_device_id me]) (cloud w) = (Ok d, cl) ->
  device_list_not_single d = Ok false ->
  obind (py_getitem d "deviceList") py_getitem0 = Ok device_data ->
  py_getitem device_data "name" = Ok name ->
  py_getitem device_data "deviceModel" = Ok model ->
  obind (py_getitem device_data "channels") py_iter = Ok chans ->
  py_next (channelId_is (ch_channel_id me)) chans = Ok None ->
  fst (async_initialize_body api_client py_str self w) =
    Raise (ImouException InvalidResponse " invalid channel id " (ch_channel_id me)).
Proof.
  intros Hme Hapi Hok Hdd Hname Hmodel Hchans Hnone. unfold async_initialize_body.
  rewrite (bind_Ok _ _ _ _ _ (get_channel_Some _ _ _ Hme)).
  rewrite (bind_Ok _ _ _ _ _ (await_api_eq _ _ _ _ Hapi)).
  unfold bind, lift, ret, raise, modify_channel. rewrite Hok, Hdd, Hname. cbn [channels].
  rewrite Hme, Hmodel. cbn [channels].
  rewrite (list_lookup_insert_eq _ _ _ (lookup_lt_Some _ _ _ Hme)).
  now rewrite Hchans, Hnone.
Qed.

(** ** [ImouSensor.async_update] *)

Lemma modify_entity_Some w self (me : ImouEntity) (f : ImouEntity -> ImouEntity) :
  entities w !! self = Some me ->
  modify_entity self f w =
    (Ok tt, {| cloud := cloud w; channels := channels w;
               entities := <[self := f me]> (entities w); trace := trace w |}).
Proof. intros H. unfold modify_entity. now rewrite H. Qed.

(** Setting the state of a sensor to the "Unknown" label, then the tail
    of [async_update]: the log record and the updated flag. *)
Lemma sensor_set_unknown_then_finish w self (me : ImouEntity) :
  entities w !! self = Some me ->
  exists w' me',
    (set_state_of self (VStr "UNKNOWN") ;;
     emit (Log DEBUG "[%s] updating %s, value is %s") ;;
     mark_updated self)%prog w = (Ok tt, w') /\
    entities w' !! self = Some me' /\
    get_state me' = Some "Unknown".
Proof.
  intros Hme.
  pose proof (lookup_lt_Some _ _ _ Hme) as Hlt.
  unfold set_state_of. unfold bind at 2, lift at 1. cbn [table_getitem ONLINE_STATUS assoc].
  cbn [String.eqb Ascii.eqb Bool.eqb andb].
  unfold bind at 1. rewrite (modify_entity_Some _ _ _ _ Hme).
  unfold bind at 1, emit at 1. cbn [cloud channels entities trace].
  unfold mark_updated, bind, get_entity. cbn [entities].
  rewrite (list_lookup_insert_eq _ _ _ Hlt).
  destruct (en_updated me) eqn:Hu; cbn [set_en_kind en_updated negb]; rewrite Hu; cbn [negb].
  - eexists _, _. split; [reflexivity|]. cbn [entities].
    rewrite (list_lookup_insert_eq _ _ _ Hlt). split; reflexivity.
  - unfold modify_entity. cbn [entities]. rewrite (list_lookup_insert_eq _ _ _ Hlt).
    eexists _, _. split; [reflexivity|]. cbn [entities].
    rewrite list_lookup_insert_eq by (now rewrite length_insert). split; reflexivity.
Qed.

(** Runs [async_update] of a ready status sensor up to the payload. *)
Ltac sensor_reaches_payload Hready Hsensor Hty Hcall :=
  rewrite (bind_Ok _ _ _ _ _ Hready); cbn [negb];
  rewrite (bind_Ok _ _ _ _ _ Hsensor); rewrite Hty;
  cbn [String.eqb Ascii.eqb Bool.eqb];
  unfold bind at 1; unfold bind at 1; rewrite Hcall.

(** C3, as the code has it.  For a ready sensor of type "status" whose
    status request returns a payload [d]:
    - when the device-level online code is absent from [d],
      [async_update] raises InvalidResponse, by its explicit guard, and
      writes nothing;
    - when the device-level code is present and is tested not to be a
      key of ONLINE_STATUS (a list or a dict cannot be tested), the
      state becomes "Unknown" and nothing is raised;
    - when the device-level code is a key of ONLINE_STATUS, [d] lists
      its channels, each record carries a channelId and none is this
      channel's, so that the channel-level code is absent with its
      record, the state becomes "Unknown" and nothing is raised;
    - when the device-level code is a key of ONLINE_STATUS, the list of
      channels holds a record of this channel (each record before it
      carrying a channelId) and the channel-level code of that record is
      present and is tested not to be a key of ONLINE_STATUS, the state
      becomes "Unknown" and nothing is raised. *)
Theorem sensor_update_unrecognized_codes w self (me : ImouEntity) (st : option string)
    w1 (d : pyval) (cl : Cloud) :
  entities w !! self = Some me ->
  en_kind me = ImouSensor st ->
  en_sensor_type me = "status" ->
  _async_is_ready api_client self w = (Ok true, w1) ->
  api_client (async_api_deviceOnline (en_device_id me)) (cloud w1) = (Ok d, cl) ->
  (py_contains "onLine" d = Ok false ->
   ImouSensor_async_update api_client self w =
     (Raise (ImouException InvalidResponse "onLine not found in " d),
      {| cloud := cl; channels := channels w1; entities := entities w;
         trace := (trace w1 ++ [Call (async_api_deviceOnline (en_device_id me))])%list |}))
  /\
  (forall code : pyval,
     py_getitem d "onLine" = Ok code ->
     table_contains ONLINE_STATUS code = Ok false ->
     exists w' me',
       ImouSensor_async_update api_client self w = (Ok tt, w') /\
       entities w' !! self = Some me' /\
       get_state me' = Some "Unknown")
  /\
  (forall (code : pyval) (chans : list pyval),
     py_getitem d "onLine" = Ok code ->
     table_contains ONLINE_STATUS code = Ok true ->
     obind (py_getitem d "channels") py_iter = Ok chans ->
     py_next (channelId_is (en_channel_id me)) chans = Ok None ->
     exists w' me',
       ImouSensor_async_update api_client self w = (Ok tt, w') /\
       entities w' !! self = Some me' /\
       get_state me' = Some "Unknown")
  /\
  (forall (code : pyval) (chans : list pyval) (cd channel_code : pyval),
     py_getitem d "onLine" = Ok code ->
     table_contains ONLINE_STATUS code = Ok true ->
     obind (py_getitem d "channels") py_iter = Ok chans ->
     py_next (channelId_is (en_channel_id me)) chans = Ok (Some cd) ->
     py_getitem cd "onLine" = Ok channel_code ->
     table_contains ONLINE_STATUS channel_code = Ok false ->
     exists w' me',
       ImouSensor_async_update api_client self w = (Ok tt, w') /\
       entities w' !! self = Some me' /\
       get_state me' = Some "Unknown").
Proof.
  intros Hme Hk Hty Hready Hapi.
  pose proof (is_ready_same_entities self _ _ _ Hready) as Hsame.
  unfold same_entities in Hsame.
  assert (Hme1 : entities w1 !! self = Some me) by (now rewrite Hsame).
  assert (Hsensor : get_sensor self w1 = (Ok me, w1)).
  { unfold get_sensor. rewrite (bind_Ok _ _ _ _ _ (get_entity_Some _ _ _ Hme1)).
    now rewrite Hk. }
  set (w2 := {| cloud := cl; channels := channels w1; entities := entities w1;
                trace := (trace w1 ++ [Call (async_api_deviceOnline (en_device_id me))])%list |}).
  assert (Hme2 : entities w2 !! self = Some me) by exact Hme1.
  assert (Hcall : await_api api_client (async_api_deviceOnline (en_device_id me)) w1 =
                  (Ok d, w2)) by (now apply await_api_eq).
  unfold ImouSensor_async_update.
  split; [|split; [|split]].
  - intros Habsent. sensor_reaches_payload Hready Hsensor Hty Hcall.
    unfold bind, lift. rewrite Habsent. cbn [negb raise].
    unfold raise, w2. now rewrite Hsame.
  - intros code Hcode Hunknown. sensor_reaches_payload Hready Hsensor Hty Hcall.
    unfold bind at 1, lift at 1.
    rewrite (getitem_contains _ _ _ Hcode). cbn [negb].
    unfold bind at 1, lift at 1. rewrite Hcode.
    unfold bind at 1, lift at 1. rewrite Hunknown.
    destruct (sensor_set_unknown_then_finish w2 self me Hme2) as [w' [me' [E [H1 H2]]]].
    exists w', me'. split; [|split]; [|exact H1|exact H2].
    rewrite <- E. unfold bind. destruct (set_state_of self (VStr "UNKNOWN") w2) as [[[]|e] w3];
      reflexivity.
  - intros code chans Hcode Hknown Hchans Hnone.
    sensor_reaches_payload Hready Hsensor Hty Hcall.
    unfold bind at 1, lift at 1.
    rewrite (getitem_contains _ _ _ Hcode). cbn [negb].
    unfold bind at 1, lift at 1. rewrite Hcode.
    unfold bind at 1, lift at 1. rewrite Hknown.
    unfold bind at 1, lift at 1. rewrite Hchans.
    unfold bind at 1, lift at 1. rewrite Hnone.
    destruct (sensor_set_unknown_then_finish w2 self me Hme2) as [w' [me' [E [H1 H2]]]].
    exists w', me'. split; [|split]; [|exact H1|exact H2].
    rewrite <- E. unfold bind. destruct (set_state_of self (VStr "UNKNOWN") w2) as [[[]|e] w3];
      reflexivity.
  - intros code chans cd channel_code Hcode Hknown Hchans Hfound Hccode Hunknown.
    sensor_reaches_payload Hready Hsensor Hty Hcall.
    unfold bind at 1, lift at 1.
    rewrite (getitem_contains _ _ _ Hcode). cbn [negb].
    unfold bind at 1, lift at 1. rewrite Hcode.
    unfold bind at 1, lift at 1. rewrite Hknown.
    unfold bind at 1, lift at 1. rewrite Hchans.
    unfold bind at 1, lift at 1. rewrite Hfound.
    unfold bind at 1, lift at 1. rewrite Hccode.
    unfold bind at 1, lift at 1. rewrite Hunknown.
    destruct (sensor_set_unknown_then_finish w2 self me Hme2) as [w' [me' [E [H1 H2]]]].
    exists w', me'. split; [|split]; [|exact H1|exact H2].
    rewrite <- E. unfold bind. destruct (set_state_of self (VStr "UNKNOWN") w2) as [[[]|e] w3];
      reflexivity.
Qed.

(** ** [async_refresh_status] *)

Lemma recognized_code_has_label (code : pyval) :
  table_contains ONLINE_STATUS code = Ok true ->
  exists label,
    table_getitem ONLINE_STATUS code = Ok label /\
    In label ["Offline"; "Online"; "Dormant"; "Unknown"].
Proof.
  destruct code as [| | |s| |]; cbn [table_contains]; try discriminate.
  unfold table_getitem. intros H.
  destruct (assoc s ONLINE_STATUS) as [label|] eqn:E; [|discriminate].
  exists label. split; [reflexivity|].
  cbn [assoc ONLINE_STATUS] in E.
  repeat match type of E with
         | context [if ?b then _ else _] => destruct b
         end;
    inversion E; cbn; auto.
Qed.

(** C1, as the code has it.  When the payload carries a recognized
    top-level code and the sub-record of this channel carries a
    recognized code, [async_refresh_status] returns and the status it
    stores, which [get_status] then returns, is that raw channel code;
    the code is a key of ONLINE_STATUS and maps to one of Offline,
    Online, Dormant, Unknown.  For the top-level code "1" and the
    channel code "4" the status stored and returned is "4", which maps
    to "Dormant". *)
Theorem refresh_status_stores_raw_code w self (me : ImouCamChannel) (d : pyval) (cl : Cloud)
    (top : pyval) (chans : list pyval) (cd code : pyval) :
  channels w !! self = Some me ->
  api_client (async_api_deviceOnline (ch_device_id me)) (cloud w) = (Ok d, cl) ->
  py_getitem d "onLine" = Ok top ->
  table_contains ONLINE_STATUS top = Ok true ->
  obind (py_getitem d "channels") py_iter = Ok chans ->
  py_next (get_channelId_is (ch_channel_id me)) chans = Ok (Some cd) ->
  py_getitem cd "onLine" = Ok code ->
  table_contains ONLINE_STATUS code = Ok true ->
  async_refresh_status api_client self w =
    (Ok tt,
     {| cloud := cl;
        channels := <[self := set_ch_status code me]> (channels w);
        entities := entities w;
        trace := (trace w ++ [Call (async_api_deviceOnline (ch_device_id me))])%list |}) /\
  get_status (set_ch_status code me) = code /\
  (exists label,
     table_getitem ONLINE_STATUS code = Ok label /\
     In label ["Offline"; "Online"; "Dormant"; "Unknown"]) /\
  (top = VStr "1" -> code = VStr "4" ->
   get_status (set_ch_status code me) = VStr "4" /\
   table_getitem ONLINE_STATUS code = Ok "Dormant").
Proof.
  intros Hme Hapi Htop Hktop Hchans Hfound Hcode Hkcode.
  split; [|split; [|split]].
  - unfold async_refresh_status.
    rewrite (bind_Ok _ _ _ _ _ (get_channel_Some _ _ _ Hme)).
    rewrite (bind_Ok _ _ _ _ _ (await_api_eq _ _ _ _ Hapi)).
    unfold bind, lift, ret, code_not_valid.
    rewrite (getitem_contains _ _ _ Htop), Htop. cbn [obind negb]. rewrite Hktop.
    cbn [obind negb]. rewrite Hchans, Hfound.
    rewrite (getitem_contains _ _ _ Hcode), Hcode. cbn [obind negb]. rewrite Hkcode.
    cbn [obind negb]. unfold modify_channel. cbn [channels]. now rewrite Hme.
  - reflexivity.
  - now apply recognized_code_has_label.
  - intros _ ->. split; reflexivity.
Qed.

(** ** [async_discover_channels] *)

(** C6, the failing case.  When the first request of discovery, the
    device-list lookup, raises a domain exception, the handler logs it
    and [return channels] then reads a local that was never assigned:
    the coroutine raises UnboundLocalError and returns no mapping. *)
Theorem discover_list_lookup_failure_is_unbound w (kind : ImouKind) (text : string)
    (about : pyval) (cl : Cloud) :
  api_client async_api_deviceBaseList (cloud w) =
    (Raise (ImouException kind text about), cl) ->
  fst (async_discover_channels api_client py_str w) = Raise (UnboundLocalError "channels").
Proof.
  intros Hapi. unfold async_discover_channels, async_discover_channels_body.
  unfold bind, try_except, in_world, emit, await_api. cbn [fst snd cloud].
  rewrite Hapi. cbn [is_ImouException].
  destruct (is_InvalidResponse (ImouException kind text about)); reflexivity.
Qed.

End Properties.

(** * Worked runs *)

(** C2, the failing case.  Three devices are registered and the detail
    lookup of the second comes back unrecognized.  Discovery sends no
    request for the third device: it logs the warning and returns the
    channel of the first device only. *)
Theorem discover_stops_at_unrecognized_device :
  fst (async_discover_channels cloud_three_devices no_str (start tt [] [])) =
    Ok [ ("Home1 - Cam", 0) ] /\
  actions (trace (snd (async_discover_channels cloud_three_devices no_str (start tt [] [])))) =
    [ Call async_api_deviceBaseList;
      Call (async_api_deviceBaseDetailList [VStr "D1"]);
      Call (async_api_deviceBaseDetailList [VStr "D1"]);
      Call (async_api_getCollection (VStr "D1") (VStr "0"));
      Call (async_api_deviceBaseDetailList [VStr "D2"]) ] /\
  List.last (trace (snd (async_discover_channels cloud_three_devices no_str (start tt [] []))))
    (Log DEBUG EmptyString) =
    LogExc WARNING "Skipping unrecognized or unsupported device: "
      (ImouException InvalidResponse "deviceList not found in " (VDict [])).
Proof. vm_compute. repeat split. Qed.

(** A failure that is not an InvalidResponse, met inside the loop, ends
    discovery with the channels found so far. *)
Example discover_refused_in_loop_keeps_channels :
  fst (async_discover_channels cloud_second_refused no_str (start tt [] [])) =
    Ok [ ("Home1 - Cam", 0) ].
Proof. vm_compute. reflexivity. Qed.

(** With no failure, the three devices give three channels. *)
Example discover_three_devices :
  fst (async_discover_channels
         (fun c u => match c with
                     | async_api_deviceBaseDetailList [VStr "D2"] => (Ok (detail "D2" "Home2"), u)
                     | _ => cloud_three_devices c u
                     end) no_str (start tt [] [])) =
    Ok [ ("Home1 - Cam", 0); ("Home2 - Cam", 1); ("Home3 - Cam", 2) ].
Proof. vm_compute. reflexivity. Qed.

(** ** The theorems at concrete inputs *)

(** The scenario of the spec: top-level code "1", channel code "4". *)
Lemma refresh_status_stores_raw_code_witness :
  table_contains ONLINE_STATUS (VStr "1") = Ok true /\
  table_contains ONLINE_STATUS (VStr "4") = Ok true /\
  fst (async_refresh_status cloud_1_4 0 (start tt [fresh_channel] [])) = Ok tt /\
  get_status (set_ch_status (VStr "4") fresh_channel) = VStr "4" /\
  table_getitem ONLINE_STATUS (VStr "4") = Ok "Dormant".
Proof.
  destruct (refresh_status_stores_raw_code cloud_1_4 (start tt [fresh_channel] []) 0
              fresh_channel online_1_4 tt (VStr "1")
              [ VDict [ ("channelId", VStr "0"); ("onLine", VStr "4") ] ]
              (VDict [ ("channelId", VStr "0"); ("onLine", VStr "4") ]) (VStr "4"))
    as [Hrun [Hget [_ Hfour]]]; try reflexivity.
  destruct (Hfour eq_refl eq_refl) as [_ Hlabel].
  split; [reflexivity|]. split; [reflexivity|]. split; [now rewrite Hrun|].
  split; [exact Hget | exact Hlabel].
Defined.

(** What the claim C1 says of that scenario fails: the status stored and
    returned is "4", not "Dormant". *)
Lemma refresh_status_does_not_store_label :
  fst (async_refresh_status cloud_1_4 0 (start tt [fresh_channel] [])) = Ok tt /\
  (get_status <$>
     channels (snd (async_refresh_status cloud_1_4 0 (start tt [fresh_channel] []))) !! 0)
    = Some (VStr "4") /\
  (get_status <$>
     channels (snd (async_refresh_status cloud_1_4 0 (start tt [fresh_channel] []))) !! 0)
    <> Some (VStr "Dormant").
Proof. vm_compute. repeat split. discriminate. Qed.

(** A status sensor, enabled and attached to no channel, is ready; the
    payload has no top-level code, one outside the table, no record of
    the sensor's channel, a channel code outside the table. *)
Lemma sensor_update_unrecognized_codes_witness :
  _async_is_ready cloud_no_code 0 (start tt [] [status_sensor]) =
    (Ok true, start tt [] [status_sensor]) /\
  fst (ImouSensor_async_update cloud_no_code 0 (start tt [] [status_sensor])) =
    Raise (ImouException InvalidResponse "onLine not found in "
             (VDict [ ("channels",
                       VList [ VDict [ ("channelId", VStr "0"); ("onLine", VStr "1") ] ]) ])) /\
  (exists w' me',
     ImouSensor_async_update cloud_code_7 0 (start tt [] [status_sensor]) = (Ok tt, w') /\
     entities w' !! 0 = Some me' /\ get_state me' = Some "Unknown") /\
  (exists w' me',
     ImouSensor_async_update cloud_other_channel 0 (start tt [] [status_sensor]) = (Ok tt, w') /\
     entities w' !! 0 = Some me' /\ get_state me' = Some "Unknown") /\
  (exists w' me',
     ImouSensor_async_update cloud_channel_code_9 0 (start tt [] [status_sensor]) = (Ok tt, w') /\
     entities w' !! 0 = Some me' /\ get_state me' = Some "Unknown").
Proof.
  split; [reflexivity|]. split; [|split; [|split]].
  - destruct (sensor_update_unrecognized_codes cloud_no_code (start tt [] [status_sensor]) 0
                status_sensor None (start tt [] [status_sensor])
                (VDict [ ("channels",
                          VList [ VDict [ ("channelId", VStr "0"); ("onLine", VStr "1") ] ]) ])
                tt eq_refl eq_refl eq_refl eq_refl eq_refl) as [Habsent _].
    now rewrite (Habsent eq_refl).
  - destruct (sensor_update_unrecognized_codes cloud_code_7 (start tt [] [status_sensor]) 0
                status_sensor None (start tt [] [status_sensor])
                (VDict [ ("onLine", VStr "7");
                         ("channels",
                          VList [ VDict [ ("channelId", VStr "0"); ("onLine", VStr "1") ] ]) ])
                tt eq_refl eq_refl eq_refl eq_refl eq_refl) as [_ [Hdevice _]].
    exact (Hdevice (VStr "7") eq_refl eq_refl).
  - destruct (sensor_update_unrecognized_codes cloud_other_channel
                (start tt [] [status_sensor]) 0
                status_sensor None (start tt [] [status_sensor])
                (VDict [ ("onLine", VStr "1");
                         ("channels",
                          VList [ VDict [ ("channelId", VStr "9"); ("onLine", VStr "1") ] ]) ])
                tt eq_refl eq_refl eq_refl eq_refl eq_refl) as [_ [_ [Hmissing _]]].
    exact (Hmissing (VStr "1")
             [ VDict [ ("channelId", VStr "9"); ("onLine", VStr "1") ] ]
             eq_refl eq_refl eq_refl eq_refl).
  - destruct (sensor_update_unrecognized_codes cloud_channel_code_9
                (start tt [] [status_sensor]) 0
                status_sensor None (start tt [] [status_sensor])
                (VDict [ ("onLine", VStr "1");
                         ("channels",
                          VList [ VDict [ ("channelId", VStr "0"); ("onLine", VStr "9") ] ]) ])
                tt eq_refl eq_refl eq_refl eq_refl eq_refl) as [_ [_ [_ Hchannel]]].
    exact (Hchannel (VStr "1")
             [ VDict [ ("channelId", VStr "0"); ("onLine", VStr "9") ] ]
             (VDict [ ("channelId", VStr "0"); ("onLine", VStr "9") ]) (VStr "9")
             eq_refl eq_refl eq_refl eq_refl eq_refl eq_refl).
Defined.

(** What the claim C3 says fails when the device-level code is absent:
    the sensor is ready and of type "status", the payload has no
    top-level code, and [async_update] raises InvalidResponse and leaves
    the state unset. *)
Lemma sensor_update_raises_without_device_code :
  _async_is_ready cloud_no_code 0 (start tt [] [status_sensor]) =
    (Ok true, start tt [] [status_sensor]) /\
  en_sensor_type status_sensor = "status" /\
  (exists d, cloud_no_code (async_api_deviceOnline (VStr "D1")) tt = (Ok d, tt) /\
             py_contains "onLine" d = Ok false) /\
  fst (ImouSensor_async_update cloud_no_code 0 (start tt [] [status_sensor])) =
    Raise (ImouException InvalidResponse "onLine not found in "
             (VDict [ ("channels",
                       VList [ VDict [ ("channelId", VStr "0"); ("onLine", VStr "1") ] ]) ])) /\
  (get_state <$>
     entities (snd (ImouSensor_async_update cloud_no_code 0 (start tt [] [status_sensor]))) !! 0)
    = Some None.
Proof. vm_compute. repeat split. eexists. split; reflexivity. Qed.

(** The body meets a payload without a device list; the channel starts
    with its flag False. *)
Lemma initialize_swallows_domain_exception_witness :
  ch_initialized fresh_channel = false /\
  fst (async_initialize_body cloud_no_device_list no_str 0 (start tt [fresh_channel] [])) =
    Raise (ImouException InvalidResponse "deviceList not found in " (VDict [])) /\
  (exists me1 w1,
     async_initialize cloud_no_device_list no_str 0 (start tt [fresh_channel] []) =
       (Ok tt,
        {| cloud := cloud w1;
           channels := <[0 := set_ch_initialized true me1]> (channels w1);
           entities := entities w1;
           trace := (trace w1 ++
                     [LogExc ERROR "Exception: "
                        (ImouException InvalidResponse "deviceList not found in "
                           (VDict []))])%list |})) /\
  (ch_initialized <$>
     channels (snd (async_initialize cloud_no_device_list no_str 0
                      (start tt [fresh_channel] []))) !! 0) = Some true.
Proof.
  split; [reflexivity|]. split; [reflexivity|].
  destruct (initialize_swallows_domain_exception cloud_no_device_list no_str
              (start tt [fresh_channel] []) 0 fresh_channel
              InvalidResponse "deviceList not found in " (VDict [])
              {| cloud := tt; channels := [fresh_channel]; entities := [];
                 trace := [Call (async_api_deviceBaseDetailList [VStr "D1"])] |}
              eq_refl eq_refl) as [me1 [_ [Hrun Hflag]]].
  split; [|exact Hflag].
  exists me1. eexists. exact Hrun.
Defined.

(** A dormant camera that the command wakes. *)
Lemma wakeup_one_command_one_wait_witness :
  ch_sleepable sleepable_channel = true /\
  actions (trace (snd (async_wakeup dormant_cloud 0 (start false [sleepable_channel] [])))) =
    [ Call (async_api_deviceOnline (VStr "D1"));
      Call (async_api_setDeviceCameraStatus (VStr "D1") "closeDormant" true);
      Sleep WAIT_AFTER_WAKE_UP;
      Call (async_api_deviceOnline (VStr "D1")) ].
Proof.
  split; [reflexivity|].
  exact (wakeup_one_command_one_wait dormant_cloud (start false [sleepable_channel] []) 0
           sleepable_channel
           {| cloud := false;
              channels := [set_ch_status (VStr "4") sleepable_channel];
              entities := [];
              trace := [Call (async_api_deviceOnline (VStr "D1"))] |}
           (Ok VNone) true eq_refl eq_refl eq_refl eq_refl eq_refl).
Defined.

(** What the claim C7 says fails when the close-dormant command is
    refused: the channel is sleep-capable, its refreshed status is "4",
    not Online, and the call sends the one command, then raises; there
    is no sleep and no second status request. *)
Lemma wakeup_refused_command_no_wait :
  ch_sleepable sleepable_channel = true /\
  fst (async_refresh_status cloud_1_4 0 (start tt [sleepable_channel] [])) = Ok tt /\
  fst (status_is_Online 0
         (snd (async_refresh_status cloud_1_4 0 (start tt [sleepable_channel] [])))) =
    Ok false /\
  fst (async_wakeup cloud_1_4 0 (start tt [sleepable_channel] [])) =
    Raise (ImouException APIError "refused" VNone) /\
  actions (trace (snd (async_wakeup cloud_1_4 0 (start tt [sleepable_channel] [])))) =
    [ Call (async_api_deviceOnline (VStr "D1"));
      Call (async_api_setDeviceCameraStatus (VStr "D1") "closeDormant" true) ].
Proof. vm_compute. repeat split. Qed.

(** A channel as the constructor leaves it does not sleep. *)
Lemma wakeup_not_sleepable_returns_true_witness :
  ch_sleepable fresh_channel = false /\
  async_wakeup refusing_cloud 0 (start tt [fresh_channel] []) =
    (Ok true, start tt [fresh_channel] []).
Proof.
  split; [reflexivity|].
  apply (wakeup_not_sleepable_returns_true refusing_cloud (start tt [fresh_channel] []) 0
           fresh_channel); reflexivity.
Defined.

(** A select after an update, asked for its placeholder. *)
Lemma select_option_sentinel_is_noop_witness :
  py_eq (VStr SENTINEL) (VStr SENTINEL) = true /\
  ImouSelect_async_select_option refusing_cloud 0 (VStr SENTINEL)
    (start tt [] [updated_select]) = (Ok tt, start tt [] [updated_select]).
Proof.
  split; [reflexivity|].
  apply (select_option_sentinel_is_noop refusing_cloud (start tt [] [updated_select]) 0
           updated_select (VStr SENTINEL) (VStr SENTINEL) [VStr "door"] (VStr SENTINEL));
    reflexivity.
Defined.

(** A select before any update, disabled, asked for a preset. *)
Lemma select_option_empty_IndexError_witness :
  en_enabled (set_en_enabled false fresh_select) = false /\
  ImouSelect_async_select_option refusing_cloud 0 (VStr "door")
    (start tt [] [set_en_enabled false fresh_select]) =
    (Raise IndexError, start tt [] [set_en_enabled false fresh_select]).
Proof.
  split; [reflexivity|].
  apply (select_option_empty_IndexError refusing_cloud
           (start tt [] [set_en_enabled false fresh_select]) 0
           (set_en_enabled false fresh_select) VNone (VStr "door")); reflexivity.
Defined.

(** The device-list lookup is refused with an APIError. *)
Lemma discover_list_lookup_failure_is_unbound_witness :
  refusing_cloud async_api_deviceBaseList tt =
    (Raise (ImouException APIError "refused" VNone), tt) /\
  fst (async_discover_channels refusing_cloud no_str (start tt [] [])) =
    Raise (UnboundLocalError "channels").
Proof.
  split; [reflexivity|].
  apply (discover_list_lookup_failure_is_unbound refusing_cloud no_str (start tt [] [])
           APIError "refused" VNone tt); reflexivity.
Defined.

(** A select is updated against a cloud with one preset, then asked for
    its placeholder: the update puts the placeholder at index 0 and
    selects it, and the request for it changes nothing. *)
Example select_update_then_sentinel :
  let presets (c : ApiCall) (u : unit) :=
    match c with
    | async_api_getCollection _ _ =>
        (Ok (VDict [ ("collections", VList [ VDict [ ("name", VStr "door") ] ]) ]), u)
    | _ => (Raise (ImouException APIError "refused" VNone), u)
    end in
  let w1 := snd (ImouSelect_async_update presets 0 (start tt [] [fresh_select])) in
  (get_available_options <$> entities w1 !! 0) = Some [VStr SENTINEL; VStr "door"] /\
  (get_current_option <$> entities w1 !! 0) = Some (VStr SENTINEL) /\
  ImouSelect_async_select_option presets 0 (VStr SENTINEL) w1 = (Ok tt, w1).
Proof. vm_compute. repeat split. Qed.

(** * Further properties *)

Section Further.

Context {Cloud : Type}.
Variable api_client : ApiCall -> Cloud -> outcome pyval * Cloud.
Variable py_str : pyval -> string.

Implicit Types (w : World Cloud) (self : nat).

(** ** Stepping through a coroutine *)

Lemma modify_channel_Some w self (me : ImouCamChannel) (f : ImouCamChannel -> ImouCamChannel) :
  channels w !! self = Some me ->
  modify_channel self f w =
    (Ok tt, {| cloud := cloud w; channels := <[self := f me]> (channels w);
               entities := entities w; trace := trace w |}).
Proof. intros H. unfold modify_channel. now rewrite H. Qed.

Lemma code_valid_recognized (v code : pyval) :
  code_not_valid v = Ok false ->
  py_getitem v "onLine" = Ok code ->
  table_contains ONLINE_STATUS code = Ok true.
Proof.
  unfold code_not_valid. intros H Hc.
  rewrite (getitem_contains _ _ _ Hc), Hc in H. cbn [obind negb] in H.
  destruct (table_contains ONLINE_STATUS code) as [[|]|e]; cbn in H;
    [reflexivity | discriminate | discriminate].
Qed.

(** ** [async_refresh_status]: what it rejects *)

Lemma code_not_valid_cases (v : pyval) :
  py_contains "onLine" v = Ok false \/
  (exists code, py_getitem v "onLine" = Ok code /\
                table_contains ONLINE_STATUS code = Ok false) ->
  code_not_valid v = Ok true.
Proof.
  unfold code_not_valid. intros [Habs | [code [Hc Hk]]].
  - now rewrite Habs.
  - rewrite (getitem_contains _ _ _ Hc), Hc. cbn. now rewrite Hk.
Qed.

Lemma refresh_status_top_level_guard w self (me : ImouCamChannel) (d : pyval) (cl : Cloud) :
  channels w !! self = Some me ->
  api_client (async_api_deviceOnline (ch_device_id me)) (cloud w) = (Ok d, cl) ->
  code_not_valid d = Ok true ->
  async_refresh_status api_client self w =
    (Raise (ImouException InvalidResponse "onLine not valid in " d),
     {| cloud := cl; channels := channels w; entities := entities w;
        trace := (trace w ++ [Call (async_api_deviceOnline (ch_device_id me))])%list |}).
Proof.
  intros Hme Hapi Hnv. unfold async_refresh_status.
  rewrite (bind_Ok _ _ _ _ _ (get_channel_Some _ _ _ Hme)).
  rewrite (bind_Ok _ _ _ _ _ (await_api_eq _ _ _ _ _ Hapi)).
  unfold bind at 1, lift at 1. rewrite Hnv. reflexivity.
Qed.



(** A refresh that returns has met a valid payload and has written the
    code of the sub-record of its channel. *)
Lemma refresh_status_returns_inv w self (me : ImouCamChannel) w' :
  channels w !! self = Some me ->
  async_refresh_status api_client self w = (Ok tt, w') ->
  exists (code : pyval) (cl : Cloud),
    table_contains ONLINE_STATUS code = Ok true /\
    w' = {| cloud := cl; channels := <[self := set_ch_status code me]> (channels w);
            entities := entities w;
            trace := (trace w ++ [Call (async_api_deviceOnline (ch_device_id me))])%list |}.
Proof.
  intros Hme H. unfold async_refresh_status in H.
  rewrite (bind_Ok _ _ _ _ _ (get_channel_Some _ _ _ Hme)) in H.
  unfold bind at 1, await_api at 1 in H.
  destruct (api_client _ (cloud w)) as [[d|e] cl]; [|discriminate].
  unfold bind at 1, lift at 1 in H.
  destruct (code_not_valid d) as [[|]|e]; try discriminate.
  unfold bind at 1, ret at 1 in H.
  unfold bind at 1, lift at 1 in H.
  destruct (obind (py_getitem d "channels") py_iter) as [chans|e]; [|discriminate].
  unfold bind at 1, lift at 1 in H.
  destruct (py_next _ chans) as [[cd|]|e]; try discriminate.
  unfold bind at 1, lift at 1 in H.
  destruct (code_not_valid cd) as [[|]|e] eqn:Hcd; try discriminate.
  unfold bind at 1, lift at 1 in H.
  destruct (py_getitem cd "onLine") as [code|e] eqn:Hcode; [|discriminate].
  unfold modify_channel in H. cbn [channels] in H. rewrite Hme in H.
  inversion H; subst. exists code, cl. split; [|reflexivity].
  exact (code_valid_recognized _ _ Hcd Hcode).
Qed.

Lemma recognized_code_cases (code : pyval) :
  table_contains ONLINE_STATUS code = Ok true ->
  code = VStr "0" \/ code = VStr "1" \/ code = VStr "4" \/ code = VStr "UNKNOWN".
Proof.
  destruct code as [| | |s| |]; cbn [table_contains]; try discriminate.
  cbn [assoc ONLINE_STATUS].
  destruct (String.eqb_spec s "0") as [->|]; [auto|].
  destruct (String.eqb_spec s "1") as [->|]; [auto|].
  destruct (String.eqb_spec s "4") as [->|]; [auto|].
  destruct (String.eqb_spec s "UNKNOWN") as [->|]; [auto 6|].
  discriminate.
Qed.

(** X3.  After a refresh that returned, [is_online] answers: True for the
    codes "1" and "4", False for "0" and "UNKNOWN". *)
Theorem is_online_defined_after_refresh w self (me : ImouCamChannel) w' :
  channels w !! self = Some me ->
  async_refresh_status api_client self w = (Ok tt, w') ->
  exists me',
    channels w' !! self = Some me' /\
    (is_online me' = Ok true /\ (ch_status me' = VStr "1" \/ ch_status me' = VStr "4") \/
     is_online me' = Ok false /\ (ch_status me' = VStr "0" \/ ch_status me' = VStr "UNKNOWN")).
Proof.
  intros Hme H.
  destruct (refresh_status_returns_inv _ _ _ _ Hme H) as [code [cl [Hk ->]]].
  exists (set_ch_status code me). split.
  - cbn [channels]. apply list_lookup_insert_eq. eapply lookup_lt_Some; eassumption.
  - cbn [ch_status set_ch_status].
    destruct (recognized_code_cases _ Hk) as [ -> | [ -> | [ -> | -> ] ] ]; unfold is_online; cbn; auto.
Qed.


(** ** [async_wakeup]: its answer *)

Lemma status_is_Online_inv w self (b : bool) w' :
  status_is_Online self w = (Ok b, w') ->
  exists (me : ImouCamChannel) (label : string),
    channels w !! self = Some me /\
    table_getitem ONLINE_STATUS (ch_status me) = Ok label /\
    b = String.eqb label "Online" /\ w' = w.
Proof.
  unfold status_is_Online, bind, get_channel, lift, ret. intros H.
  destruct (channels w !! self) as [me|]; [|discriminate].
  destruct (table_getitem ONLINE_STATUS (ch_status me)) as [label|e] eqn:E; [|discriminate].
  inversion H; subst. now exists me, label.
Qed.

(** X4.  When the refresh already shows the camera online, the call ends
    there. *)
Theorem wakeup_already_online w self (me : ImouCamChannel) w1 :
  channels w !! self = Some me ->
  ch_sleepable me = true ->
  async_refresh_status api_client self w = (Ok tt, w1) ->
  status_is_Online self w1 = (Ok true, w1) ->
  async_wakeup api_client self w = (Ok true, w1) /\
  trace w1 = (trace w ++ [Call (async_api_deviceOnline (ch_device_id me))])%list.
Proof.
  intros Hme Hs Hrefresh Honline. split.
  - unfold async_wakeup.
    rewrite (bind_Ok _ _ _ _ _ (get_channel_Some _ _ _ Hme)). rewrite Hs. cbn [negb].
    rewrite (bind_Ok _ _ _ _ _ Hrefresh).
    now rewrite (bind_Ok _ _ _ _ _ Honline).
  - destruct (refresh_status_returns_inv _ _ _ _ Hme Hrefresh) as [code [cl [_ ->]]].
    reflexivity.
Qed.

(** The status a channel holds when [status_is_Online] has answered on a
    recognized code. *)
Lemma status_of_answer w self (me : ImouCamChannel) (b : bool) w' :
  channels w !! self = Some me ->
  table_contains ONLINE_STATUS (ch_status me) = Ok true ->
  status_is_Online self w = (Ok b, w') ->
  if b then ch_status me = VStr "1"
  else ch_status me = VStr "0" \/ ch_status me = VStr "4" \/ ch_status me = VStr "UNKNOWN".
Proof.
  intros Hme Hk H.
  destruct (status_is_Online_inv _ _ _ _ H) as [me0 [label [Hme0 [Hl [-> _]]]]].
  rewrite Hme in Hme0. inversion Hme0; subst me0.
  destruct (recognized_code_cases _ Hk) as [E|[E|[E|E]]]; rewrite E in Hl |- *;
    cbn in Hl; inversion Hl; subst; cbn; auto.
Qed.

(** X5.  On a sleep-capable channel [async_wakeup] returns True only with
    the status "1" stored, and False only with another recognized code
    stored and the warning logged last. *)
Theorem wakeup_answer_is_stored_status w self (me : ImouCamChannel) (b : bool) w' :
  channels w !! self = Some me ->
  ch_sleepable me = true ->
  async_wakeup api_client self w = (Ok b, w') ->
  exists me',
    channels w' !! self = Some me' /\
    if b then ch_status me' = VStr "1"
    else (ch_status me' = VStr "0" \/ ch_status me' = VStr "4" \/
          ch_status me' = VStr "UNKNOWN") /\
         List.last (trace w') (Sleep 0) =
           Log WARNING "[%s] failed to wake up dormant device".
Proof.
  intros Hme Hs H. unfold async_wakeup in H.
  rewrite (bind_Ok _ _ _ _ _ (get_channel_Some _ _ _ Hme)) in H. rewrite Hs in H.
  cbn [negb] in H. unfold bind at 1 in H.
  destruct (async_refresh_status api_client self w) as [[[]|e] w1] eqn:R1; [|discriminate].
  destruct (refresh_status_returns_inv _ _ _ _ Hme R1) as [c1 [cl1 [Hk1 Hw1]]].
  assert (Hme1 : channels w1 !! self = Some (set_ch_status c1 me)).
  { subst w1. cbn [channels]. apply list_lookup_insert_eq. eapply lookup_lt_Some; eassumption. }
  unfold bind at 1 in H.
  destruct (status_is_Online self w1) as [[o|e] w1'] eqn:S1; [|discriminate].
  pose proof (status_of_answer _ _ _ _ _ Hme1 Hk1 S1) as Hst1.
  apply status_is_Online_same_world in S1. subst w1'.
  destruct o.
  - inversion H; subst b w'. exists (set_ch_status c1 me). split; [exact Hme1 | exact Hst1].
  - unfold bind at 1, emit at 1 in H.
    unfold bind at 1, await_api at 1 in H. cbn [cloud] in H.
    destruct (api_client _ (cloud w1)) as [[reply|e] cl]; [|discriminate].
    unfold bind at 1, get_channel at 1 in H. cbn [channels] in H. rewrite Hme1 in H.
    unfold bind at 1, asyncio_sleep at 1, emit at 1 in H.
    cbn [cloud channels entities trace] in H.
    match type of H with
    | context [bind (async_refresh_status _ _) _ ?w2] => set (w1c := w2) in H
    end.
    assert (Hme1c : channels w1c !! self = Some (set_ch_status c1 me)) by exact Hme1.
    unfold bind at 1 in H.
    destruct (async_refresh_status api_client self w1c) as [[[]|e] w2] eqn:R2; [|discriminate].
    destruct (refresh_status_returns_inv _ _ _ _ Hme1c R2) as [c2 [cl2 [Hk2 Hw2]]].
    assert (Hme2 : channels w2 !! self = Some (set_ch_status c2 (set_ch_status c1 me))).
    { rewrite Hw2. cbn [channels]. apply list_lookup_insert_eq.
      eapply lookup_lt_Some; eassumption. }
    unfold bind at 1 in H.
    destruct (status_is_Online self w2) as [[o|e] w2'] eqn:S2; [|discriminate].
    pose proof (status_of_answer _ _ _ _ _ Hme2 Hk2 S2) as Hst2.
    apply status_is_Online_same_world in S2. subst w2'.
    destruct o; cbn in H; inversion H; subst b w'; cbn [channels trace];
      exists (set_ch_status c2 (set_ch_status c1 me)); (split; [exact Hme2|]).
    + exact Hst2.
    + split; [exact Hst2 | apply last_last].
Qed.

(** ** [async_initialize]: how it ends *)

Section Related.

Variable P : ImouCamChannel -> ImouCamChannel -> Prop.
Hypothesis P_refl : forall c, P c c.
Hypothesis P_trans : forall c1 c2 c3, P c1 c2 -> P c2 c3 -> P c1 c3.

Lemma related_refl w : channels_related P w w.
Proof. intros r c H. eauto. Qed.

Lemma related_trans w1 w2 w3 :
  channels_related P w1 w2 -> channels_related P w2 w3 -> channels_related P w1 w3.
Proof.
  intros H12 H23 r c H. destruct (H12 _ _ H) as [c2 [H2 P2]].
  destruct (H23 _ _ H2) as [c3 [H3 P3]]. eauto.
Qed.

Lemma related_same_channels w w' : channels w' = channels w -> channels_related P w w'.
Proof. intros E r c H. rewrite E. eauto. Qed.

Lemma emit_related ev : keeps (channels_related P) (emit (Cloud := Cloud) ev).
Proof. intros w r w' H. inversion H. now apply related_same_channels. Qed.

Lemma await_api_related c : keeps (channels_related P) (await_api api_client c).
Proof.
  intros w r w' H. unfold await_api in H.
  destruct (api_client c (cloud w)). inversion H. now apply related_same_channels.
Qed.

Lemma get_channel_related self : keeps (channels_related P) (get_channel (Cloud := Cloud) self).
Proof.
  intros w r w' H. unfold get_channel in H.
  destruct (channels w !! self); inversion H; subst; apply related_refl.
Qed.

Lemma get_entity_related self : keeps (channels_related P) (get_entity (Cloud := Cloud) self).
Proof.
  intros w r w' H. unfold get_entity in H.
  destruct (entities w !! self); inversion H; subst; apply related_refl.
Qed.

Lemma modify_entity_related self f :
  keeps (channels_related P) (modify_entity (Cloud := Cloud) self f).
Proof.
  intros w r w' H. unfold modify_entity in H.
  destruct (entities w !! self); inversion H; subst; now apply related_same_channels.
Qed.

Lemma new_entity_related e : keeps (channels_related P) (new_entity (Cloud := Cloud) e).
Proof. intros w r w' H. inversion H. now apply related_same_channels. Qed.

Lemma new_channel_related c : keeps (channels_related P) (new_channel (Cloud := Cloud) c).
Proof.
  intros w r w' H. inversion H; subst. intros i ci Hi. exists ci. split; [|apply P_refl].
  cbn [channels]. rewrite lookup_app_l; [exact Hi | eapply lookup_lt_Some; eassumption].
Qed.

Lemma modify_channel_related self f :
  (forall c, P c (f c)) ->
  keeps (channels_related P) (modify_channel (Cloud := Cloud) self f).
Proof.
  intros Hf w r w' H. unfold modify_channel in H.
  destruct (channels w !! self) as [c|] eqn:E; inversion H; subst; [|apply related_refl].
  intros i ci Hi. cbn [channels].
  destruct (Nat.eq_dec self i) as [->|Hne].
  - rewrite E in Hi. inversion Hi; subst ci. exists (f c). split; [|apply Hf].
    apply list_lookup_insert_eq. eapply lookup_lt_Some; eassumption.
  - exists ci. split; [|apply P_refl]. now rewrite list_lookup_insert_ne.
Qed.

End Related.

Lemma flag_kept_refl c : flag_kept c c.
Proof. reflexivity. Qed.

Lemma flag_kept_trans c1 c2 c3 : flag_kept c1 c2 -> flag_kept c2 c3 -> flag_kept c1 c3.
Proof. unfold flag_kept. congruence. Qed.

(** Breaks a composite computation into its steps, down to the steps
    that [leaf] settles. *)
Ltac keeps_down_to refl trans leaf :=
  repeat first
    [ solve [leaf]
    | apply (keeps_bind _ trans); [| intros ?]
    | apply (keeps_ret _ refl)
    | apply (keeps_raise _ refl)
    | apply (keeps_lift _ refl)
    | apply (keeps_for_each _ refl trans); intros ?
    | apply (keeps_try_except _ trans); [| intros ?]
    | match goal with
      | |- keeps _ (if ?b then _ else _) => destruct b
      | |- keeps _ (match ?x with _ => _ end) => destruct x
      end ].

Lemma initialize_body_keeps_flag self :
  keeps (channels_related flag_kept) (async_initialize_body api_client py_str self).
Proof.
  unfold async_initialize_body.
  keeps_down_to (related_refl flag_kept flag_kept_refl)
                (related_trans flag_kept flag_kept_trans)
    ltac:(first
      [ apply (get_channel_related _ flag_kept_refl)
      | apply (get_entity_related _ flag_kept_refl)
      | apply (modify_entity_related _ flag_kept_refl)
      | apply (new_entity_related _ flag_kept_refl)
      | apply (emit_related _ flag_kept_refl)
      | apply (await_api_related _ flag_kept_refl)
      | apply (modify_channel_related _ flag_kept_refl); intros c; reflexivity ]).
Qed.

(** X6.  [async_initialize] ends in one of two ways: it returns, with the
    initialized flag set; or an exception that is not a domain exception
    escapes it, with the flag as it was. *)
Theorem initialize_returns_or_keeps_flag w self (me : ImouCamChannel) (r : outcome unit) w' :
  channels w !! self = Some me ->
  async_initialize api_client py_str self w = (r, w') ->
  exists me',
    channels w' !! self = Some me' /\
    match r with
    | Ok _ => ch_initialized me' = true
    | Raise e => is_ImouException e = false /\ ch_initialized me' = ch_initialized me
    end.
Proof.
  intros Hme H. unfold async_initialize, bind, try_except in H.
  destruct (async_initialize_body api_client py_str self w) as [[[]|e] w1] eqn:B;
    destruct (initialize_body_keeps_flag self _ _ _ B _ _ Hme) as [me1 [Hme1 Hf]].
  - rewrite (modify_channel_Some _ _ _ _ Hme1) in H. inversion H; subst.
    exists (set_ch_initialized true me1). split; [|reflexivity]. cbn [channels].
    apply list_lookup_insert_eq. eapply lookup_lt_Some; eassumption.
  - destruct (is_ImouException e) eqn:K.
    + unfold emit, modify_channel in H. cbn [channels] in H. rewrite Hme1 in H.
      inversion H; subst. exists (set_ch_initialized true me1).
      split; [|reflexivity]. cbn [channels].
      apply list_lookup_insert_eq. eapply lookup_lt_Some; eassumption.
    + inversion H; subst. exists me1. split; [exact Hme1 | split; [exact K | exact Hf]].
Qed.

(** ** [async_get_data]: what a returned value tells *)

Lemma initialize_returned_sets_flag w self w1 :
  async_initialize api_client py_str self w = (Ok tt, w1) ->
  exists me1, channels w1 !! self = Some me1 /\ ch_initialized me1 = true.
Proof.
  unfold async_initialize. unfold bind at 1. intros H.
  destruct (try_except _ _ _ w) as [[[]|e] w0]; [|discriminate].
  unfold modify_channel in H.
  destruct (channels w0 !! self) as [c|] eqn:E; [|discriminate].
  inversion H; subst. exists (set_ch_initialized true c). split; [|reflexivity].
  cbn [channels]. apply list_lookup_insert_eq. eapply lookup_lt_Some; eassumption.
Qed.

(** X7.  [async_get_data] returns False exactly on a disabled channel, with
    nothing done; when it returns True the channel is initialized and
    holds a recognized status code. *)
Theorem get_data_answer w self (me : ImouCamChannel) (b : bool) w' :
  channels w !! self = Some me ->
  async_get_data api_client py_str self w = (Ok b, w') ->
  (b = false /\ ch_enabled me = false /\ w' = w) \/
  (b = true /\ ch_enabled me = true /\
   exists me',
     channels w' !! self = Some me' /\
     ch_initialized me' = true /\
     table_contains ONLINE_STATUS (ch_status me') = Ok true).
Proof.
  intros Hme H. unfold async_get_data in H.
  rewrite (bind_Ok _ _ _ _ _ (get_channel_Some _ _ _ Hme)) in H.
  destruct (ch_enabled me) eqn:En; cbn [negb] in H.
  2: { inversion H; subst. left. auto. }
  right.
  assert (Hinit : exists w1 me1,
    channels w1 !! self = Some me1 /\ ch_initialized me1 = true /\
    (emit (Log DEBUG "[%s] update requested") ;;
     async_refresh_status api_client self ;; ret true)%prog w1 = (Ok b, w')).
  { unfold bind at 1 in H. destruct (ch_initialized me) eqn:I; cbn [negb] in H.
    - exists w, me. auto.
    - destruct (async_initialize api_client py_str self w) as [[[]|e] w1] eqn:A;
        [|discriminate].
      destruct (initialize_returned_sets_flag _ _ _ A) as [me1 [Hme1 Hf]].
      exists w1, me1. auto. }
  destruct Hinit as [w1 [me1 [Hme1 [Hi Hrest]]]].
  unfold bind at 1, emit at 1 in Hrest. unfold bind at 1 in Hrest.
  match type of Hrest with
  | context [async_refresh_status _ _ ?w2] => set (w1l := w2) in Hrest
  end.
  assert (Hme1l : channels w1l !! self = Some me1) by exact Hme1.
  destruct (async_refresh_status api_client self w1l) as [[[]|e] w2] eqn:R; [|discriminate].
  inversion Hrest; subst b w'.
  destruct (refresh_status_returns_inv _ _ _ _ Hme1l R) as [code [cl [Hk ->]]].
  split; [reflexivity|]. split; [reflexivity|].
  exists (set_ch_status code me1). split; [|split; [exact Hi | exact Hk]].
  cbn [channels]. apply list_lookup_insert_eq. eapply lookup_lt_Some; eassumption.
Qed.


(** ** Entities: the readiness gate and what passes it *)

Lemma is_ready_disabled w self (me : ImouEntity) :
  entities w !! self = Some me ->
  en_enabled me = false ->
  _async_is_ready api_client self w = (Ok false, w).
Proof.
  intros Hme He. unfold _async_is_ready.
  rewrite (bind_Ok _ _ _ _ _ (get_entity_Some _ _ _ Hme)). now rewrite He.
Qed.

(** X8.  A disabled entity does nothing: its update, its press and its
    selection return at the gate, before the channel is asked to wake
    up and before any request, and leave the world as it was. *)
Theorem disabled_entity_does_nothing w self (me : ImouEntity) :
  entities w !! self = Some me ->
  en_enabled me = false ->
  ImouSensor_async_update api_client self w = (Ok tt, w) /\
  ImouButton_async_press api_client self w = (Ok tt, w) /\
  ImouSelect_async_update api_client self w = (Ok tt, w) /\
  (forall (option current first : pyval) (rest : list pyval),
     en_kind me = ImouSelect current (first :: rest) ->
     ImouSelect_async_select_option api_client self option w = (Ok tt, w)).
Proof.
  intros Hme He. pose proof (is_ready_disabled _ _ _ Hme He) as Hr.
  repeat split.
  - unfold ImouSensor_async_update. now rewrite (bind_Ok _ _ _ _ _ Hr).
  - unfold ImouButton_async_press. now rewrite (bind_Ok _ _ _ _ _ Hr).
  - unfold ImouSelect_async_update. now rewrite (bind_Ok _ _ _ _ _ Hr).
  - intros option current first rest Hk. unfold ImouSelect_async_select_option.
    rewrite (bind_Ok _ _ _ _ _ (get_select_Some _ _ _ _ _ Hme Hk)).
    unfold get_available_options. rewrite Hk. cbn [list_getitem0].
    unfold bind at 1, lift at 1.
    destruct (py_eq option first); [reflexivity|].
    now rewrite (bind_Ok _ _ _ _ _ Hr).
Qed.

(** The tail of an update or of a press: the log record, then the
    updated flag. *)
Lemma log_then_mark_updated w self (me : ImouEntity) (text : string) :
  entities w !! self = Some me ->
  exists w',
    (emit (Log DEBUG text) ;; mark_updated self)%prog w = (Ok tt, w') /\
    cloud w' = cloud w /\ channels w' = channels w /\
    trace w' = (trace w ++ [Log DEBUG text])%list /\
    entities w' = <[self := set_en_updated true me]> (entities w).
Proof.
  intros Hme. pose proof (lookup_lt_Some _ _ _ Hme) as Hlt.
  unfold bind at 1, emit at 1. unfold mark_updated, bind, get_entity. cbn [entities].
  rewrite Hme. destruct (en_updated me) eqn:Hu; cbn [negb].
  - eexists. split; [reflexivity|]. cbn. repeat split.
    symmetry. apply list_insert_id. rewrite Hme. f_equal.
    destruct me; cbn in *; now subst.
  - unfold modify_entity. cbn [entities]. rewrite Hme.
    eexists. split; [reflexivity|]. cbn. repeat split.
Qed.

(** X10.  A press that passes the gate sends the one request of its
    type: restart of the device, or the move to the preset bound to the
    button.  If the request returns, the press is logged and the updated
    flag of the button reads True afterwards; if it raises, the
    exception escapes and no entity is touched. *)
Theorem press_sends_one_request w self (me : ImouEntity) w1 (request : ApiCall)
    (r : outcome pyval) (cl : Cloud) :
  entities w !! self = Some me ->
  _async_is_ready api_client self w = (Ok true, w1) ->
  (en_sensor_type me = "restartDevice" /\
   request = async_api_restartDevice (en_device_id me)) \/
  (en_sensor_type me = "turnCollection" /\
   request = async_api_turnCollection (en_device_id me) (en_channel_id me)
               (en_sensor_param me)) ->
  api_client request (cloud w1) = (r, cl) ->
  match r with
  | Ok _ =>
      ImouButton_async_press api_client self w =
        (Ok tt,
         {| cloud := cl; channels := channels w1;
            entities := <[self := set_en_updated true me]> (entities w);
            trace := (trace w1 ++ [Call request; Log DEBUG "[%s] pressed button %s"])%list |})
      /\
      (en_updated <$> entities (snd (ImouButton_async_press api_client self w)) !! self) =
        Some true
  | Raise e =>
      ImouButton_async_press api_client self w =
        (Raise e,
         {| cloud := cl; channels := channels w1; entities := entities w;
            trace := (trace w1 ++ [Call request])%list |})
  end.
Proof.
  intros Hme Hready Hty Hapi.
  pose proof (is_ready_same_entities api_client self _ _ _ Hready) as Hsame.
  unfold same_entities in Hsame.
  assert (Hme1 : entities w1 !! self = Some me) by (now rewrite Hsame).
  assert (Hopen : forall rest : M (World Cloud) unit,
    ImouButton_async_press api_client self w =
    ((if String.eqb (en_sensor_type me) "restartDevice"
      then await_api api_client (async_api_restartDevice (en_device_id me)) ;; ret tt
      else if String.eqb (en_sensor_type me) "turnCollection"
      then await_api api_client
             (async_api_turnCollection (en_device_id me) (en_channel_id me)
                (en_sensor_param me)) ;; ret tt
      else ret tt) ;;
     emit (Log DEBUG "[%s] pressed button %s") ;; mark_updated self)%prog w1).
  { intros _. unfold ImouButton_async_press.
    rewrite (bind_Ok _ _ _ _ _ Hready). cbn [negb].
    now rewrite (bind_Ok _ _ _ _ _ (get_entity_Some _ _ _ Hme1)). }
  specialize (Hopen (ret tt)).
  set (w2 := {| cloud := cl; channels := channels w1; entities := entities w1;
                trace := (trace w1 ++ [Call request])%list |}).
  assert (Hcall : await_api api_client request w1 = (r, w2)) by (now apply await_api_eq).
  assert (Hme2 : entities w2 !! self = Some me) by exact Hme1.
  destruct (log_then_mark_updated w2 self me "[%s] pressed button %s" Hme2)
    as [w' [Htail [Hc [Hch [Ht He]]]]].
  assert (Hdispatch :
    (if String.eqb (en_sensor_type me) "restartDevice"
     then await_api api_client (async_api_restartDevice (en_device_id me)) ;; ret tt
     else if String.eqb (en_sensor_type me) "turnCollection"
     then await_api api_client
            (async_api_turnCollection (en_device_id me) (en_channel_id me)
               (en_sensor_param me)) ;; ret tt
     else ret tt)%prog w1 =
    (match r with Ok _ => Ok tt | Raise e => Raise e end, w2)).
  { destruct Hty as [[Hty ->] | [Hty ->]]; rewrite Hty; cbn [String.eqb Ascii.eqb Bool.eqb];
      unfold bind; rewrite Hcall; now destruct r. }
  destruct r as [reply|e].
  - match goal with |- ?run /\ _ => assert (Hrun : run) end.
    { rewrite Hopen. unfold bind at 1. rewrite Hdispatch.
      rewrite Htail. f_equal. destruct w'; cbn in *; subst; cbn.
      rewrite <- app_assoc. now rewrite Hsame. }
    split; [exact Hrun|]. rewrite Hrun. cbn [snd entities].
    rewrite (list_lookup_insert_eq _ _ _ (lookup_lt_Some _ _ _ Hme)). reflexivity.
  - rewrite Hopen. unfold bind at 1. rewrite Hdispatch. unfold w2. now rewrite Hsame.
Qed.

(** X11.  [ImouSelect.async_update] that passes the gate rebuilds the
    options from the presets of the cloud, the placeholder first, and
    selects the placeholder, whatever was selected before: afterwards
    [get_available_options] and [get_current_option] answer so, and the
    updated flag reads True. *)
Theorem select_update_resets_to_sentinel w self (me : ImouEntity) (current : pyval)
    (available : list pyval) w1 (favourites : pyval) (cl : Cloud)
    (items names : list pyval) :
  entities w !! self = Some me ->
  en_kind me = ImouSelect current available ->
  en_sensor_type me = "turnCollection" ->
  _async_is_ready api_client self w = (Ok true, w1) ->
  api_client (async_api_getCollection (en_device_id me) (en_channel_id me)) (cloud w1) =
    (Ok favourites, cl) ->
  py_getitem favourites "collections" = Ok (VList items) ->
  list_comprehension (fun c => py_getitem c "name") items = Ok names ->
  ImouSelect_async_update api_client self w =
    (Ok tt,
     {| cloud := cl; channels := channels w1;
        entities :=
          <[self := set_en_updated true
                      (set_en_kind (ImouSelect (VStr SENTINEL) (VStr SENTINEL :: names)) me)]>
            (entities w);
        trace := (trace w1 ++
                  [ Call (async_api_getCollection (en_device_id me) (en_channel_id me));
                    Log DEBUG "found {len} collection points";
                    Log DEBUG "[%s] updating %s, value is %s %s" ])%list |}) /\
  (get_available_options <$>
     entities (snd (ImouSelect_async_update api_client self w)) !! self) =
    Some (VStr SENTINEL :: names) /\
  (get_current_option <$>
     entities (snd (ImouSelect_async_update api_client self w)) !! self) =
    Some (VStr SENTINEL) /\
  (en_updated <$> entities (snd (ImouSelect_async_update api_client self w)) !! self) =
    Some true.
Proof.
  intros Hme Hk Hty Hready Hapi Hcoll Hnames.
  match goal with |- ?run /\ _ => assert (Hrun : run) end.
  {
    pose proof (is_ready_same_entities api_client self _ _ _ Hready) as Hsame.
    unfold same_entities in Hsame.
    assert (Hme1 : entities w1 !! self = Some me) by (now rewrite Hsame).
    pose proof (lookup_lt_Some _ _ _ Hme1) as Hlt.
    unfold ImouSelect_async_update.
    rewrite (bind_Ok _ _ _ _ _ Hready). cbn [negb].
    rewrite (bind_Ok _ _ _ _ _ (get_select_Some _ _ _ _ _ Hme1 Hk)).
    rewrite Hty. cbn [String.eqb Ascii.eqb Bool.eqb].
    unfold bind at 1. unfold bind at 1. rewrite (await_api_eq _ _ _ _ _ Hapi).
    unfold bind at 1, lift at 1. rewrite Hcoll. cbn [obind py_len].
    unfold bind at 1, emit at 1.
    unfold bind at 1, lift at 1. cbn [obind py_iter].
    unfold bind at 1, lift at 1. rewrite Hnames.
    unfold bind at 1, modify_entity at 1. cbn [entities]. rewrite Hme1.
    unfold bind at 1, get_select at 1, bind at 1, get_entity at 1. cbn [entities].
    rewrite (list_lookup_insert_eq _ _ _ Hlt).
    unfold get_current_option at 1. rewrite Hk. cbn [set_en_kind en_kind ret].
    unfold bind at 1, lift at 1. cbn [get_available_options set_en_kind en_kind list_getitem0].
    unfold modify_entity at 1. cbn [entities].
    rewrite (list_lookup_insert_eq _ _ _ Hlt).
    cbn [get_available_options set_en_kind en_kind].
    match goal with
    | |- context [bind (emit _) _ ?w2] => set (w3 := w2)
    end.
    assert (Hme3 : entities w3 !! self =
                   Some (set_en_kind (ImouSelect (VStr SENTINEL) (VStr SENTINEL :: names)) me)).
    { unfold w3. cbn [entities]. rewrite list_lookup_insert_eq by (now rewrite length_insert).
      reflexivity. }
    destruct (log_then_mark_updated w3 self _ "[%s] updating %s, value is %s %s" Hme3)
      as [w' [Htail [Hc [Hch [Ht He]]]]].
    rewrite Htail. f_equal. destruct w'; cbn in *; subst; cbn.
    rewrite !list_insert_insert_eq. rewrite <- !app_assoc. now rewrite Hsame.
  }
  split; [exact Hrun|]. rewrite Hrun. cbn [snd entities].
  rewrite (list_lookup_insert_eq _ _ _ (lookup_lt_Some _ _ _ Hme)).
  repeat split.
Qed.

(** X13.  [async_select_option] with an option other than the one at
    index 0, past the gate: one move-to-preset request carrying the
    option as it was given (it is not looked up among the options); when
    the request returns, [get_current_option] answers the option at
    index 0 again, not the one asked for, and the options are as
    before. *)
Theorem select_option_sends_and_snaps_back w self (me : ImouEntity)
    (current first : pyval) (rest : list pyval) (option : pyval) w1 (reply : pyval)
    (cl : Cloud) :
  entities w !! self = Some me ->
  en_kind me = ImouSelect current (first :: rest) ->
  en_sensor_type me = "turnCollection" ->
  py_eq option first = false ->
  _async_is_ready api_client self w = (Ok true, w1) ->
  api_client (async_api_turnCollection (en_device_id me) (en_channel_id me) option)
    (cloud w1) = (Ok reply, cl) ->
  ImouSelect_async_select_option api_client self option w =
    (Ok tt,
     {| cloud := cl; channels := channels w1;
        entities := <[self := set_en_kind (ImouSelect first (first :: rest)) me]> (entities w);
        trace := (trace w1 ++
                  [ Log DEBUG "[%s] %s setting to %s";
                    Call (async_api_turnCollection (en_device_id me) (en_channel_id me)
                            option) ])%list |}) /\
  (get_current_option <$>
     entities (snd (ImouSelect_async_select_option api_client self option w)) !! self) =
    Some first /\
  (get_available_options <$>
     entities (snd (ImouSelect_async_select_option api_client self option w)) !! self) =
    Some (first :: rest).
Proof.
  intros Hme Hk Hty Hne Hready Hapi.
  match goal with |- ?run /\ _ => assert (Hrun : run) end.
  {
    pose proof (is_ready_same_entities api_client self _ _ _ Hready) as Hsame.
    unfold same_entities in Hsame.
    assert (Hme1 : entities w1 !! self = Some me) by (now rewrite Hsame).
    unfold ImouSelect_async_select_option.
    rewrite (bind_Ok _ _ _ _ _ (get_select_Some _ _ _ _ _ Hme Hk)).
    unfold get_available_options at 1. rewrite Hk. cbn [list_getitem0].
    unfold bind at 1, lift at 1. rewrite Hne.
    rewrite (bind_Ok _ _ _ _ _ Hready). cbn [negb].
    unfold bind at 1, emit at 1. rewrite Hty. cbn [String.eqb Ascii.eqb Bool.eqb].
    unfold bind at 1, await_api at 1. cbn [cloud]. rewrite Hapi.
    unfold bind at 1, get_select at 1, bind at 1, get_entity at 1. cbn [entities].
    rewrite Hme1, Hk. cbn [ret].
    unfold get_available_options at 1. rewrite Hk.
    unfold bind at 1, lift at 1. cbn [list_getitem0].
    unfold modify_entity. cbn [entities cloud channels trace]. rewrite Hme1.
    unfold get_available_options. rewrite Hk.
    rewrite <- app_assoc. now rewrite Hsame.
  }
  split; [exact Hrun|]. rewrite Hrun. cbn [snd entities].
  rewrite (list_lookup_insert_eq _ _ _ (lookup_lt_Some _ _ _ Hme)).
  repeat split.
Qed.

(** ** [get_sensor_by_name] *)

Lemma scan_by_name_never_finds (type name : pyval) (l : list nat) w :
  snd (scan_by_name py_str type name l w) = w /\
  forall r, fst (scan_by_name py_str type name l w) <> Ok (Some r).
Proof.
  induction l as [|i l IH]; cbn [scan_by_name].
  - split; [reflexivity | intros r; discriminate].
  - unfold bind at 1, get_entity at 1. unfold bind at 2, get_entity at 1.
    destruct (entities w !! i) as [e|]; [|split; [reflexivity | intros r; discriminate]].
    destruct (py_eq (VStr (ImouEntity_get_name py_str e)) type); [|exact IH].
    split; [reflexivity | intros r; discriminate].
Qed.

(** X16.  [get_sensor_by_name] never returns an entity: it reads the attribute
    [channel_name], which no entity has, as soon as the name of an
    entity equals the type asked for.  With such an entity attached it
    raises AttributeError; with none it returns None. *)
Theorem get_sensor_by_name_never_finds w self (me : ImouCamChannel) (type name : pyval) :
  channels w !! self = Some me ->
  (forall i, In i (get_all_sensors me) -> exists e, entities w !! i = Some e) ->
  (forall r, fst (get_sensor_by_name py_str self type name w) <> Ok (Some r)) /\
  ((exists i e, In i (get_all_sensors me) /\ entities w !! i = Some e /\
                py_eq (VStr (ImouEntity_get_name py_str e)) type = true) ->
   get_sensor_by_name py_str self type name w = (Raise AttributeError, w)) /\
  ((forall i e, In i (get_all_sensors me) -> entities w !! i = Some e ->
                py_eq (VStr (ImouEntity_get_name py_str e)) type = false) ->
   get_sensor_by_name py_str self type name w = (Ok None, w)).
Proof.
  intros Hme Hall. unfold get_sensor_by_name.
  rewrite (bind_Ok _ _ _ _ _ (get_channel_Some _ _ _ Hme)).
  split; [apply scan_by_name_never_finds|].
  induction (get_all_sensors me) as [|i l IH]; cbn [scan_by_name].
  - split; [intros [i [e [[] _]]] | reflexivity].
  - destruct (Hall i (or_introl eq_refl)) as [e He].
    unfold bind at 1, get_entity at 1. rewrite He.
    unfold bind at 2, get_entity at 1. rewrite He.
    destruct (IH (fun j Hj => Hall j (or_intror Hj))) as [IH1 IH2].
    destruct (py_eq (VStr (ImouEntity_get_name py_str e)) type) eqn:E.
    + split; [reflexivity|]. intros Hnone.
      specialize (Hnone i e (or_introl eq_refl) He). congruence.
    + split.
      * intros [j [ej [[->|Hj] [Hej Hm]]]]; [congruence|]. apply IH1. eauto.
      * intros Hnone. apply IH2. intros j ej Hj. apply Hnone. now right.
Qed.


(** ** [async_discover_channels]: the list payload *)


(** X18.  With no device registered, discovery returns the empty mapping
    after its one request. *)
Theorem discover_no_device w (d count : pyval) (cl : Cloud) :
  api_client async_api_deviceBaseList (cloud w) = (Ok d, cl) ->
  py_getitem d "deviceList" = Ok (VList []) ->
  py_getitem d "count" = Ok count ->
  async_discover_channels api_client py_str w =
    (Ok [],
     {| cloud := cl; channels := channels w; entities := entities w;
        trace := (trace w ++
                  [ Log DEBUG "Starting discovery";
                    Call async_api_deviceBaseList;
                    Log DEBUG "Discovered %d registered devices" ])%list |}).
Proof.
  intros Hapi Hlist Hcount.
  unfold async_discover_channels, async_discover_channels_body.
  unfold bind, try_except, in_world, emit, await_api, lift, raise, ret,
    device_list_or_count_missing, assign_channels, read_channels.
  cbn [fst snd cloud]. rewrite Hapi.
  rewrite (getitem_contains _ _ _ Hlist), (getitem_contains _ _ _ Hcount), Hcount, Hlist.
  cbn. now rewrite <- !app_assoc.
Qed.

(** ** [_async_update_data]: how a polling cycle fails *)

Lemma refresh_status_without_channels w self (me : ImouCamChannel)
    (kv : list (string * pyval)) (cl : Cloud) :
  channels w !! self = Some me ->
  api_client (async_api_deviceOnline (ch_device_id me)) (cloud w) = (Ok (VDict kv), cl) ->
  code_not_valid (VDict kv) = Ok false ->
  assoc "channels" kv = None ->
  async_refresh_status api_client self w =
    (Raise (KeyError (VStr "channels")),
     {| cloud := cl; channels := channels w; entities := entities w;
        trace := (trace w ++ [Call (async_api_deviceOnline (ch_device_id me))])%list |}).
Proof.
  intros Hme Hapi Hok Hnone. unfold async_refresh_status.
  rewrite (bind_Ok _ _ _ _ _ (get_channel_Some _ _ _ Hme)).
  rewrite (bind_Ok _ _ _ _ _ (await_api_eq _ _ _ _ _ Hapi)).
  unfold bind, lift, ret. rewrite Hok. cbn [py_getitem obind]. now rewrite Hnone.
Qed.


(** ** What no operation writes *)

Lemma channel_kept_refl c : channel_kept c c.
Proof. repeat split. Qed.

Lemma channel_kept_trans c1 c2 c3 :
  channel_kept c1 c2 -> channel_kept c2 c3 -> channel_kept c1 c3.
Proof. unfold channel_kept. intuition congruence. Qed.

(** Settles the steps of the store for [channels_related channel_kept]. *)
Ltac kept_leaf :=
  first
    [ apply (get_channel_related _ channel_kept_refl)
    | apply (get_entity_related _ channel_kept_refl)
    | apply (modify_entity_related _ channel_kept_refl)
    | apply (new_entity_related _ channel_kept_refl)
    | apply (new_channel_related _ channel_kept_refl)
    | apply (emit_related _ channel_kept_refl)
    | apply (await_api_related _ channel_kept_refl)
    | apply (modify_channel_related _ channel_kept_refl); intros ?; repeat split ].

Ltac kept_steps :=
  keeps_down_to (related_refl channel_kept channel_kept_refl)
                (related_trans channel_kept channel_kept_trans)
    ltac:(kept_leaf).

Lemma initialize_keeps_identity self :
  keeps (channels_related channel_kept) (async_initialize api_client py_str self).
Proof. unfold async_initialize, async_initialize_body. kept_steps. Qed.

Lemma wakeup_keeps_identity self :
  keeps (channels_related channel_kept) (async_wakeup api_client self).
Proof. unfold async_wakeup, async_refresh_status, status_is_Online, asyncio_sleep. kept_steps. Qed.

Lemma get_data_keeps_identity self :
  keeps (channels_related channel_kept) (async_get_data api_client py_str self).
Proof.
  unfold async_get_data, async_initialize, async_initialize_body, async_refresh_status.
  kept_steps.
Qed.

Lemma in_world_keeps {A : Type} (R : World Cloud -> World Cloud -> Prop) (m : M (World Cloud) A) :
  keeps R m -> keeps (fun s s' : Frame * World Cloud => R (snd s) (snd s')) (in_world m).
Proof.
  intros Hm s r s' H. unfold in_world in H.
  destruct (m (snd s)) as [r0 w0] eqn:E. inversion H; subst. cbn. exact (Hm _ _ _ E).
Qed.

Lemma discover_keeps (R : World Cloud -> World Cloud -> Prop) :
  (forall w, R w w) ->
  (forall w1 w2 w3, R w1 w2 -> R w2 w3 -> R w1 w3) ->
  (forall ev, is_wake_command ev = false -> keeps R (emit ev)) ->
  (forall c, is_wake_command (Call c) = false -> keeps R (await_api api_client c)) ->
  (forall d c, keeps R (new_channel (ImouCamChannel_init d c))) ->
  (forall self, keeps R (async_initialize api_client py_str self)) ->
  (forall self, keeps R (get_channel self)) ->
  forall w r w', async_discover_channels api_client py_str w = (r, w') -> R w w'.
Proof.
  intros Rrefl Rtrans Hemit Hawait Hnew Hinit Hget w r w' H.
  set (R' := fun s s' : Frame * World Cloud => R (snd s) (snd s')).
  assert (R'refl : forall s, R' s s) by (intros s; apply Rrefl).
  assert (R'trans : forall s1 s2 s3, R' s1 s2 -> R' s2 s3 -> R' s1 s3)
    by (intros s1 s2 s3; apply Rtrans).
  assert (Hread : keeps R' (read_channels (Cloud := Cloud))).
  { intros s r0 s' E. unfold read_channels in E.
    destruct (fst s); inversion E; subst; apply R'refl. }
  assert (Hassign : forall d, keeps R' (assign_channels (Cloud := Cloud) d)).
  { intros d s r0 s' E. inversion E; subst. apply Rrefl. }
  unfold async_discover_channels in H.
  match type of H with
  | (let (_, _) := ?m (None, w) in _) = _ =>
      assert (Hk : keeps R' m); [| destruct (m (None, w)) as [r0 s0] eqn:E;
                                   inversion H; subst; exact (Hk _ _ _ E)]
  end.
  unfold async_discover_channels_body.
  keeps_down_to R'refl R'trans
    ltac:(first
      [ exact Hread | apply Hassign
      | apply (in_world_keeps R);
        first [ apply Hemit; reflexivity | apply Hawait; reflexivity
              | apply Hnew | apply Hinit | apply Hget ] ]).
Qed.

(** X20.  No operation writes the identifiers of a channel, its enabled and
    sleep-capable flags, its given name or its delays, and none removes
    a channel object: whatever a refresh cycle, a wake-up, an entity
    operation or a discovery does and however it ends, every channel
    object is still there with these attributes as they were. *)
Theorem channel_identity_is_never_written :
  (forall self, keeps (channels_related channel_kept)
                  (async_get_data api_client py_str self)) /\
  (forall self, keeps (channels_related channel_kept) (async_wakeup api_client self)) /\
  (forall e, keeps (channels_related channel_kept) (ImouSensor_async_update api_client e)) /\
  (forall e, keeps (channels_related channel_kept) (ImouButton_async_press api_client e)) /\
  (forall e, keeps (channels_related channel_kept) (ImouSelect_async_update api_client e)) /\
  (forall e option,
     keeps (channels_related channel_kept)
       (ImouSelect_async_select_option api_client e option)) /\
  (forall w r w',
     async_discover_channels api_client py_str w = (r, w') ->
     channels_related channel_kept w w').
Proof.
  split; [exact get_data_keeps_identity|].
  split; [exact wakeup_keeps_identity|].
  split; [|split; [|split; [|split]]].
  - intros e. unfold ImouSensor_async_update, _async_is_ready, get_sensor, set_state_of,
      mark_updated.
    keeps_down_to (related_refl channel_kept channel_kept_refl)
                  (related_trans channel_kept channel_kept_trans)
      ltac:(first [apply wakeup_keeps_identity | kept_leaf]).
  - intros e. unfold ImouButton_async_press, _async_is_ready, mark_updated.
    keeps_down_to (related_refl channel_kept channel_kept_refl)
                  (related_trans channel_kept channel_kept_trans)
      ltac:(first [apply wakeup_keeps_identity | kept_leaf]).
  - intros e. unfold ImouSelect_async_update, _async_is_ready, get_select, mark_updated.
    keeps_down_to (related_refl channel_kept channel_kept_refl)
                  (related_trans channel_kept channel_kept_trans)
      ltac:(first [apply wakeup_keeps_identity | kept_leaf]).
  - intros e option. unfold ImouSelect_async_select_option, _async_is_ready, get_select.
    keeps_down_to (related_refl channel_kept channel_kept_refl)
                  (related_trans channel_kept channel_kept_trans)
      ltac:(first [apply wakeup_keeps_identity | kept_leaf]).
  - apply discover_keeps.
    + apply (related_refl _ channel_kept_refl).
    + apply (related_trans _ channel_kept_trans).
    + intros ev _. apply (emit_related _ channel_kept_refl).
    + intros c _. apply (await_api_related _ channel_kept_refl).
    + intros d c. apply (new_channel_related _ channel_kept_refl).
    + exact initialize_keeps_identity.
    + intros self. apply (get_channel_related _ channel_kept_refl).
Qed.


(** ** No wake command without a sleep-capable channel *)

Lemma no_wake_refl w : no_wake w w.
Proof. intros H. split; [exact H | reflexivity]. Qed.

Lemma no_wake_trans w1 w2 w3 : no_wake w1 w2 -> no_wake w2 w3 -> no_wake w1 w3.
Proof.
  intros H12 H23 H1. destruct (H12 H1) as [H2 E2]. destruct (H23 H2) as [H3 E3].
  split; [exact H3 | congruence].
Qed.

Lemma no_wake_same w w' :
  channels w' = channels w ->
  wake_commands (trace w') = wake_commands (trace w) ->
  no_wake w w'.
Proof.
  intros Ec Et H. split; [|exact Et]. intros r c Hr. rewrite Ec in Hr. exact (H _ _ Hr).
Qed.

Lemma emit_no_wake ev : is_wake_command ev = false -> keeps no_wake (emit (Cloud := Cloud) ev).
Proof.
  intros Hev w r w' H. inversion H. apply no_wake_same; cbn; [reflexivity|].
  unfold wake_commands. rewrite List.filter_app. cbn. rewrite Hev. apply app_nil_r.
Qed.

Lemma await_api_no_wake c :
  is_wake_command (Call c) = false -> keeps no_wake (await_api api_client c).
Proof.
  intros Hc w r w' H. unfold await_api in H.
  destruct (api_client c (cloud w)). inversion H. apply no_wake_same; cbn; [reflexivity|].
  unfold wake_commands. rewrite List.filter_app. cbn [List.filter]. rewrite Hc.
  apply app_nil_r.
Qed.

Lemma get_channel_no_wake self : keeps no_wake (get_channel (Cloud := Cloud) self).
Proof.
  intros w r w' H. unfold get_channel in H.
  destruct (channels w !! self); inversion H; subst; apply no_wake_refl.
Qed.

Lemma get_entity_no_wake self : keeps no_wake (get_entity (Cloud := Cloud) self).
Proof.
  intros w r w' H. unfold get_entity in H.
  destruct (entities w !! self); inversion H; subst; apply no_wake_refl.
Qed.

Lemma modify_entity_no_wake self f : keeps no_wake (modify_entity (Cloud := Cloud) self f).
Proof.
  intros w r w' H. unfold modify_entity in H.
  destruct (entities w !! self); inversion H; subst; now apply no_wake_same.
Qed.

Lemma new_entity_no_wake e : keeps no_wake (new_entity (Cloud := Cloud) e).
Proof. intros w r w' H. inversion H. now apply no_wake_same. Qed.

Lemma new_channel_no_wake c :
  ch_sleepable c = false -> keeps no_wake (new_channel (Cloud := Cloud) c).
Proof.
  intros Hc w r w' H. inversion H; subst. intros Hw. split; [|reflexivity].
  intros i ci Hi. cbn [channels] in Hi.
  apply lookup_app_Some in Hi. destruct Hi as [Hi | [_ Hi]]; [exact (Hw _ _ Hi)|].
  apply list_lookup_singleton_Some in Hi. destruct Hi as [_ <-]. exact Hc.
Qed.

Lemma modify_channel_no_wake self f :
  (forall c, ch_sleepable (f c) = ch_sleepable c) ->
  keeps no_wake (modify_channel (Cloud := Cloud) self f).
Proof.
  intros Hf w r w' H. unfold modify_channel in H.
  destruct (channels w !! self) as [c|] eqn:E; inversion H; subst; [|apply no_wake_refl].
  intros Hw. split; [|reflexivity]. intros i ci Hi. cbn [channels] in Hi.
  destruct (Nat.eq_dec self i) as [->|Hne].
  - rewrite list_lookup_insert_eq in Hi by (eapply lookup_lt_Some; eassumption).
    inversion Hi; subst ci. rewrite Hf. exact (Hw _ _ E).
  - rewrite list_lookup_insert_ne in Hi by exact Hne. exact (Hw _ _ Hi).
Qed.

Lemma wakeup_no_wake self : keeps no_wake (async_wakeup api_client self).
Proof.
  intros w r w' H Hw. unfold async_wakeup, bind at 1, get_channel at 1 in H.
  destruct (channels w !! self) as [me|] eqn:E.
  - rewrite (Hw _ _ E) in H. inversion H; subst. split; [exact Hw | reflexivity].
  - inversion H; subst. split; [exact Hw | reflexivity].
Qed.

(** Settles the steps of the store for [no_wake]. *)
Ltac no_wake_leaf :=
  first
    [ apply wakeup_no_wake
    | apply get_channel_no_wake
    | apply get_entity_no_wake
    | apply modify_entity_no_wake
    | apply new_entity_no_wake
    | apply new_channel_no_wake; reflexivity
    | apply emit_no_wake; reflexivity
    | apply await_api_no_wake; reflexivity
    | apply modify_channel_no_wake; intros ?; reflexivity ].

Ltac no_wake_steps := keeps_down_to no_wake_refl no_wake_trans ltac:(no_wake_leaf).

Lemma initialize_no_wake self : keeps no_wake (async_initialize api_client py_str self).
Proof. unfold async_initialize, async_initialize_body. no_wake_steps. Qed.

(** X21.  No path of the code makes a channel sleep-capable, and without a
    sleep-capable channel no path sends the close-dormant command: from
    a world where no channel is sleep-capable, a refresh cycle, a
    wake-up, an update, a press, a selection or a discovery, however it
    ends, leaves a world where none is, and adds no camera-status
    command to the trace. *)
Theorem no_wake_command_without_sleeper :
  (forall self, keeps no_wake (async_get_data api_client py_str self)) /\
  (forall self, keeps no_wake (async_wakeup api_client self)) /\
  (forall e, keeps no_wake (ImouSensor_async_update api_client e)) /\
  (forall e, keeps no_wake (ImouButton_async_press api_client e)) /\
  (forall e, keeps no_wake (ImouSelect_async_update api_client e)) /\
  (forall e option, keeps no_wake (ImouSelect_async_select_option api_client e option)) /\
  (forall w r w', async_discover_channels api_client py_str w = (r, w') -> no_wake w w').
Proof.
  split; [|split; [exact wakeup_no_wake|split; [|split; [|split; [|split]]]]].
  - intros self.
    unfold async_get_data, async_initialize, async_initialize_body, async_refresh_status.
    no_wake_steps.
  - intros e. unfold ImouSensor_async_update, _async_is_ready, get_sensor, set_state_of,
      mark_updated.
    no_wake_steps.
  - intros e. unfold ImouButton_async_press, _async_is_ready, mark_updated. no_wake_steps.
  - intros e. unfold ImouSelect_async_update, _async_is_ready, get_select, mark_updated.
    no_wake_steps.
  - intros e option. unfold ImouSelect_async_select_option, _async_is_ready, get_select.
    no_wake_steps.
  - apply discover_keeps.
    + exact no_wake_refl.
    + exact no_wake_trans.
    + exact emit_no_wake.
    + exact await_api_no_wake.
    + intros d c. now apply new_channel_no_wake.
    + exact initialize_no_wake.
    + exact get_channel_no_wake.
Qed.


(** ** [async_initialize]: what it builds *)

Lemma get_channel_at w self (c : ImouCamChannel) (l0 : list ImouCamChannel) :
  channels w = <[self := c]> l0 ->
  self < length l0 ->
  get_channel self w = (Ok c, w).
Proof.
  intros E Hlt. unfold get_channel. rewrite E.
  now rewrite (list_lookup_insert_eq _ _ _ Hlt).
Qed.

Lemma modify_channel_at w self (c : ImouCamChannel) (l0 : list ImouCamChannel)
    (f : ImouCamChannel -> ImouCamChannel) :
  channels w = <[self := c]> l0 ->
  self < length l0 ->
  modify_channel self f w =
    (Ok tt, {| cloud := cloud w; channels := <[self := f c]> l0;
               entities := entities w; trace := trace w |}).
Proof.
  intros E Hlt. unfold modify_channel. rewrite E.
  rewrite (list_lookup_insert_eq _ _ _ Hlt). now rewrite list_insert_insert_eq.
Qed.

(** A new entity is allocated and attached to the channel. *)
Lemma add_entity_at w self (c : ImouCamChannel) (l0 : list ImouCamChannel)
    (platform : string) (l : list nat) (e : ImouEntity) :
  channels w = <[self := c]> l0 ->
  self < length l0 ->
  assoc platform (ch_sensor_instances c) = Some l ->
  (r <- new_entity e ;; _add_sensor_instance self platform r)%prog w =
    (Ok tt,
     {| cloud := cloud w;
        channels :=
          <[self := set_ch_sensor_instances
                      (dict_set platform (l ++ [length (entities w)])%list
                         (ch_sensor_instances c)) c]> l0;
        entities := (entities w ++ [set_en_device_instance (Some self) e])%list;
        trace := trace w |}).
Proof.
  intros E Hlt Hl. unfold bind at 1, new_entity at 1. unfold _add_sensor_instance.
  unfold bind at 1, modify_entity at 1. cbn [entities].
  rewrite lookup_app_r by lia. rewrite Nat.sub_diag. cbn [lookup list_lookup].
  cbn [cloud channels entities trace].
  replace (<[length (entities w) := set_en_device_instance (Some self) e]>
             (entities w ++ [e])%list)
    with (entities w ++ [set_en_device_instance (Some self) e])%list.
  2: { rewrite <- (Nat.add_0_r (length (entities w))) at 1.
       now rewrite insert_app_r. }
  match goal with
  | |- bind (get_channel self) _ ?w1 = _ =>
      rewrite (bind_Ok _ _ _ _ _ (get_channel_at w1 self c l0 E Hlt))
  end.
  rewrite Hl.
  match goal with
  | |- modify_channel self ?f ?w1 = _ => rewrite (modify_channel_at w1 self c l0 f E Hlt)
  end.
  reflexivity.
Qed.

Lemma add_entity_then {A : Type} w self (c : ImouCamChannel) (l0 : list ImouCamChannel)
    (platform : string) (l : list nat) (e : ImouEntity) (k : M (World Cloud) A) :
  channels w = <[self := c]> l0 ->
  self < length l0 ->
  assoc platform (ch_sensor_instances c) = Some l ->
  (r <- new_entity e ;; _add_sensor_instance self platform r ;; k)%prog w =
    k {| cloud := cloud w;
         channels :=
           <[self := set_ch_sensor_instances
                       (dict_set platform (l ++ [length (entities w)])%list
                          (ch_sensor_instances c)) c]> l0;
         entities := (entities w ++ [set_en_device_instance (Some self) e])%list;
         trace := trace w |}.
Proof.
  intros E Hlt Hl. pose proof (add_entity_at w self c l0 platform l e E Hlt Hl) as H.
  unfold bind in H |- *.
  destruct (new_entity e w) as [[r|ex] w1]; [|discriminate].
  destruct (_add_sensor_instance self platform r w1) as [[[]|ex] w2];
    inversion H; subst; reflexivity.
Qed.

Lemma set_sensor_instances_twice (a b : list (string * list nat)) (c : ImouCamChannel) :
  set_ch_sensor_instances a (set_ch_sensor_instances b c) = set_ch_sensor_instances a c.
Proof. reflexivity. Qed.

Lemma preset_button_init (device_id channel_id name : pyval) :
  ImouButton_init py_str device_id channel_id "turnCollection" name =
    Ok (ImouEntity_init device_id channel_id "turnCollection" name
          ("Turn to " ++ fstr py_str name) ImouButton).
Proof. reflexivity. Qed.

Lemma restart_button_init (device_id channel_id : pyval) :
  ImouButton_init py_str device_id channel_id "restartDevice" (VStr EmptyString) =
    Ok (ImouEntity_init device_id channel_id "restartDevice" (VStr EmptyString)
          "Restart device " ImouButton).
Proof. reflexivity. Qed.

Lemma status_sensor_init (device_id channel_id : pyval) :
  ImouSensor_init py_str device_id channel_id "status" (VStr EmptyString) =
    Ok (ImouEntity_init device_id channel_id "status" (VStr EmptyString) "Status "
          (ImouSensor None)).
Proof. reflexivity. Qed.

Lemma select_init (device_id channel_id : pyval) :
  ImouSelect_init py_str device_id channel_id "turnCollection" (VStr EmptyString) =
    Ok (ImouEntity_init device_id channel_id "turnCollection" (VStr EmptyString)
          "Turn to favourite point " (ImouSelect VNone [])).
Proof. reflexivity. Qed.

(** The loop over the presets: one button per preset, in order. *)
Lemma preset_buttons_loop self (device_id channel_id : pyval) (l0 : list ImouCamChannel)
    (ls lsel : list nat) (Hlt : self < length l0) :
  forall (items names : list pyval) w (c : ImouCamChannel) (lb : list nat),
    list_comprehension (fun c => py_getitem c "name") items = Ok names ->
    channels w = <[self := c]> l0 ->
    ch_sensor_instances c = [("sensor", ls); ("button", lb); ("select", lsel)] ->
    for_each items (fun collection =>
      name <- lift (py_getitem collection "name") ;;
      button <- lift (ImouButton_init py_str device_id channel_id "turnCollection" name) ;;
      r <- new_entity button ;;
      _add_sensor_instance self "button" r)%prog w =
      (Ok tt,
       {| cloud := cloud w;
          channels :=
            <[self := set_ch_sensor_instances
                        [("sensor", ls);
                         ("button", (lb ++ seq (length (entities w)) (length names))%list);
                         ("select", lsel)] c]> l0;
          entities :=
            (entities w ++
             List.map (built_preset_button py_str self device_id channel_id) names)%list;
          trace := trace w |}).
Proof.
  induction items as [|it items IH]; intros names w c lb Hnames Hch Hsi.
  - cbn in Hnames. inversion Hnames; subst names. cbn [for_each length seq List.map].
    unfold ret. f_equal. destruct w as [cl chs ens tr]. cbn in *. subst chs.
    rewrite !app_nil_r. f_equal. f_equal. destruct c; cbn in *. now subst.
  - cbn [list_comprehension] in Hnames.
    destruct (py_getitem it "name") as [nm|e] eqn:Hnm; [|discriminate].
    cbn [obind] in Hnames.
    destruct (list_comprehension _ items) as [names'|e] eqn:Hrest; [|discriminate].
    cbn [obind] in Hnames. inversion Hnames; subst names.
    cbn [for_each]. unfold bind at 1. unfold bind at 1, lift at 1. rewrite Hnm.
    unfold bind at 1, lift at 1. rewrite preset_button_init.
    assert (Hb : assoc "button" (ch_sensor_instances c) = Some lb) by (now rewrite Hsi).
    rewrite (add_entity_at w self c l0 "button" lb _ Hch Hlt Hb).
    match goal with
    | |- for_each _ _ ?w1 = _ => set (w1' := w1)
    end.
    rewrite (IH names' w1' _ (lb ++ [length (entities w)])%list eq_refl eq_refl).
    2: { cbn [ch_sensor_instances set_ch_sensor_instances]. now rewrite Hsi. }
    unfold w1'. cbn [cloud channels entities trace]. f_equal. f_equal.
    + rewrite set_sensor_instances_twice. rewrite length_app. cbn [length seq List.map].
      rewrite Nat.add_1_r. now rewrite <- app_assoc.
    + cbn [List.map]. now rewrite <- app_assoc.
Qed.



(** ** [ImouSensor.async_update]: the state it stores *)

Lemma sensor_store_then_finish w self (me : ImouEntity) (code : pyval) (label : string) :
  entities w !! self = Some me ->
  table_getitem ONLINE_STATUS code = Ok label ->
  (set_state_of self code ;;
   emit (Log DEBUG "[%s] updating %s, value is %s") ;;
   mark_updated self)%prog w =
    (Ok tt,
     {| cloud := cloud w; channels := channels w;
        entities :=
          <[self := set_en_updated true (set_en_kind (ImouSensor (Some label)) me)]>
            (entities w);
        trace := (trace w ++ [Log DEBUG "[%s] updating %s, value is %s"])%list |}).
Proof.
  intros Hme Hl. pose proof (lookup_lt_Some _ _ _ Hme) as Hlt.
  unfold set_state_of. unfold bind at 2, lift at 1. rewrite Hl.
  unfold bind at 1. rewrite (modify_entity_Some _ _ _ _ Hme).
  match goal with
  | |- bind (emit _) _ ?w2 = _ => set (w3 := w2)
  end.
  assert (Hme3 : entities w3 !! self = Some (set_en_kind (ImouSensor (Some label)) me)).
  { unfold w3. cbn [entities]. now apply list_lookup_insert_eq. }
  destruct (log_then_mark_updated w3 self _ "[%s] updating %s, value is %s" Hme3)
    as [w' [Htail [Hc [Hch [Ht He]]]]].
  rewrite Htail. f_equal. destruct w'; cbn in *; subst; cbn.
  now rewrite list_insert_insert_eq.
Qed.

Lemma label_of_recognized (code : pyval) (label : string) :
  table_getitem ONLINE_STATUS code = Ok label ->
  table_contains ONLINE_STATUS code = Ok true.
Proof.
  destruct code as [| | |s| |]; cbn [table_getitem table_contains]; try discriminate.
  destruct (assoc s ONLINE_STATUS); [reflexivity | discriminate].
Qed.


(** ** The gate of an enabled entity *)

(** X9.  An enabled entity passes the gate with no request and nothing
    written when it is attached to no channel, or to a channel that is
    not sleep-capable. *)
Theorem ready_gate_without_request w self (me : ImouEntity) :
  entities w !! self = Some me ->
  en_enabled me = true ->
  en_device_instance me = None \/
  (exists (device : nat) (c : ImouCamChannel),
     en_device_instance me = Some device /\
     channels w !! device = Some c /\ ch_sleepable c = false) ->
  _async_is_ready api_client self w = (Ok true, w).
Proof.
  intros Hme He Hdev. unfold _async_is_ready.
  rewrite (bind_Ok _ _ _ _ _ (get_entity_Some _ _ _ Hme)). rewrite He. cbn [negb].
  destruct Hdev as [-> | [device [c [-> [Hc Hs]]]]]; [reflexivity|].
  unfold bind at 1, async_wakeup.
  rewrite (bind_Ok _ _ _ _ _ (get_channel_Some _ _ _ Hc)). now rewrite Hs.
Qed.

(** ** [ImouSelect.async_update]: a preset without a name *)

(** X12.  When a record of the preset list cannot give its name, the
    exception escapes the update and the select is as it was: the
    options are assigned only once every name has been read. *)
Theorem select_update_failure_keeps_options w self (me : ImouEntity) (current : pyval)
    (available : list pyval) w1 (favourites : pyval) (cl : Cloud)
    (items : list pyval) (e : exn) :
  entities w !! self = Some me ->
  en_kind me = ImouSelect current available ->
  en_sensor_type me = "turnCollection" ->
  _async_is_ready api_client self w = (Ok true, w1) ->
  api_client (async_api_getCollection (en_device_id me) (en_channel_id me)) (cloud w1) =
    (Ok favourites, cl) ->
  py_getitem favourites "collections" = Ok (VList items) ->
  list_comprehension (fun c => py_getitem c "name") items = Raise e ->
  ImouSelect_async_update api_client self w =
    (Raise e,
     {| cloud := cl; channels := channels w1; entities := entities w;
        trace := (trace w1 ++
                  [ Call (async_api_getCollection (en_device_id me) (en_channel_id me));
                    Log DEBUG "found {len} collection points" ])%list |}).
Proof.
  intros Hme Hk Hty Hready Hapi Hcoll Hnames.
  pose proof (is_ready_same_entities api_client self _ _ _ Hready) as Hsame.
  unfold same_entities in Hsame.
  assert (Hme1 : entities w1 !! self = Some me) by (now rewrite Hsame).
  unfold ImouSelect_async_update.
  rewrite (bind_Ok _ _ _ _ _ Hready). cbn [negb].
  rewrite (bind_Ok _ _ _ _ _ (get_select_Some _ _ _ _ _ Hme1 Hk)).
  rewrite Hty. cbn [String.eqb Ascii.eqb Bool.eqb].
  unfold bind at 1. unfold bind at 1. rewrite (await_api_eq _ _ _ _ _ Hapi).
  unfold bind at 1, lift at 1. rewrite Hcoll. cbn [obind py_len].
  unfold bind at 1, emit at 1.
  unfold bind at 1, lift at 1. cbn [obind py_iter].
  unfold bind at 1, lift at 1. rewrite Hnames.
  cbn [cloud channels entities trace]. rewrite <- app_assoc. now rewrite Hsame.
Qed.

End Further.

(** ** The further properties at concrete inputs *)



(** The refresh of the scenario "1"/"4". *)
Lemma is_online_defined_after_refresh_witness :
  exists me',
    channels (snd (async_refresh_status cloud_1_4 0 (start tt [fresh_channel] []))) !! 0 =
      Some me' /\
    (is_online me' = Ok true /\ (ch_status me' = VStr "1" \/ ch_status me' = VStr "4") \/
     is_online me' = Ok false /\ (ch_status me' = VStr "0" \/ ch_status me' = VStr "UNKNOWN")).
Proof.
  apply (is_online_defined_after_refresh cloud_1_4 (start tt [fresh_channel] []) 0
           fresh_channel); reflexivity.
Defined.

(** A sleep-capable channel whose camera is awake. *)
Lemma wakeup_already_online_witness :
  ch_sleepable sleepable_channel = true /\
  fst (async_wakeup dormant_cloud 0 (start true [sleepable_channel] [])) = Ok true /\
  trace (snd (async_wakeup dormant_cloud 0 (start true [sleepable_channel] []))) =
    [ Call (async_api_deviceOnline (VStr "D1")) ].
Proof.
  destruct (wakeup_already_online dormant_cloud (start true [sleepable_channel] []) 0
              sleepable_channel
              {| cloud := true;
                 channels := [set_ch_status (VStr "1") sleepable_channel];
                 entities := [];
                 trace := [Call (async_api_deviceOnline (VStr "D1"))] |}
              eq_refl eq_refl eq_refl eq_refl) as [Hrun _].
  split; [reflexivity|]. rewrite Hrun. split; reflexivity.
Defined.

(** A dormant camera that the command wakes: the answer is True. *)
Lemma wakeup_answer_is_stored_status_witness :
  exists me',
    channels (snd (async_wakeup dormant_cloud 0 (start false [sleepable_channel] []))) !! 0 =
      Some me' /\
    ch_status me' = VStr "1".
Proof.
  apply (wakeup_answer_is_stored_status dormant_cloud (start false [sleepable_channel] []) 0
           sleepable_channel true); reflexivity.
Defined.

(** A device record without a name: KeyError escapes, the flag stays False. *)
Lemma initialize_returns_or_keeps_flag_witness :
  fst (async_initialize cloud_nameless_device no_str 0 (start tt [fresh_channel] [])) =
    Raise (KeyError (VStr "name")) /\
  exists me',
    channels (snd (async_initialize cloud_nameless_device no_str 0
                     (start tt [fresh_channel] []))) !! 0 = Some me' /\
    is_ImouException (KeyError (VStr "name")) = false /\
    ch_initialized me' = false.
Proof.
  split; [reflexivity|].
  apply (initialize_returns_or_keeps_flag cloud_nameless_device no_str
           (start tt [fresh_channel] []) 0 fresh_channel (Raise (KeyError (VStr "name"))));
    reflexivity.
Defined.

(** A first cycle on a channel of the home cloud. *)
Lemma get_data_answer_witness :
  fst (async_get_data home_cloud no_str 0 (start tt [fresh_channel] [])) = Ok true /\
  exists me',
    channels (snd (async_get_data home_cloud no_str 0 (start tt [fresh_channel] []))) !! 0 =
      Some me' /\
    ch_initialized me' = true /\
    table_contains ONLINE_STATUS (ch_status me') = Ok true.
Proof.
  assert (E : async_get_data home_cloud no_str 0 (start tt [fresh_channel] []) =
              (Ok true,
               snd (async_get_data home_cloud no_str 0 (start tt [fresh_channel] []))))
    by (vm_compute; reflexivity).
  split; [now rewrite E|].
  destruct (get_data_answer home_cloud no_str (start tt [fresh_channel] []) 0 fresh_channel
              true _ eq_refl E) as [[H _] | [_ [_ H]]]; [discriminate | exact H].
Defined.

(** A disabled status sensor. *)
Lemma disabled_entity_does_nothing_witness :
  en_enabled (set_en_enabled false status_sensor) = false /\
  ImouSensor_async_update home_cloud 0 (start tt [] [set_en_enabled false status_sensor]) =
    (Ok tt, start tt [] [set_en_enabled false status_sensor]).
Proof.
  split; [reflexivity|].
  apply (disabled_entity_does_nothing home_cloud
           (start tt [] [set_en_enabled false status_sensor]) 0
           (set_en_enabled false status_sensor)); reflexivity.
Defined.

(** The restart button, attached to no channel. *)
Lemma press_sends_one_request_witness :
  en_updated restart_button = false /\
  ImouButton_async_press home_cloud 0 (start tt [] [restart_button]) =
    (Ok tt,
     {| cloud := tt; channels := [];
        entities := [set_en_updated true restart_button];
        trace := [ Call (async_api_restartDevice (VStr "D1"));
                   Log DEBUG "[%s] pressed button %s" ] |}) /\
  (en_updated <$>
     entities (snd (ImouButton_async_press home_cloud 0 (start tt [] [restart_button]))) !! 0) =
    Some true.
Proof.
  split; [reflexivity|].
  exact (press_sends_one_request home_cloud (start tt [] [restart_button]) 0 restart_button
           (start tt [] [restart_button]) (async_api_restartDevice (VStr "D1"))
           (Ok VNone) tt eq_refl eq_refl (or_introl (conj eq_refl eq_refl)) eq_refl).
Defined.

(** A select with one option is updated against two presets. *)
Lemma select_update_resets_to_sentinel_witness :
  get_available_options updated_select = [VStr SENTINEL; VStr "door"] /\
  (get_available_options <$>
     entities (snd (ImouSelect_async_update home_cloud 0 (start tt [] [updated_select]))) !! 0)
    = Some [VStr SENTINEL; VStr "door"; VStr "gate"] /\
  (get_current_option <$>
     entities (snd (ImouSelect_async_update home_cloud 0 (start tt [] [updated_select]))) !! 0)
    = Some (VStr SENTINEL).
Proof.
  split; [reflexivity|].
  destruct (select_update_resets_to_sentinel home_cloud (start tt [] [updated_select]) 0
              updated_select (VStr SENTINEL) [VStr SENTINEL; VStr "door"]
              (start tt [] [updated_select]) presets_door_gate tt
              [ VDict [ ("name", VStr "door") ]; VDict [ ("name", VStr "gate") ] ]
              [ VStr "door"; VStr "gate" ]
              eq_refl eq_refl eq_refl eq_refl eq_refl eq_refl eq_refl)
    as [_ [Hoptions [Hcurrent _]]].
  split; [exact Hoptions | exact Hcurrent].
Defined.

(** A select after an update, asked for the preset "door". *)
Lemma select_option_sends_and_snaps_back_witness :
  py_eq (VStr "door") (VStr SENTINEL) = false /\
  ImouSelect_async_select_option home_cloud 0 (VStr "door") (start tt [] [updated_select]) =
    (Ok tt,
     {| cloud := tt; channels := [];
        entities := [updated_select];
        trace := [ Log DEBUG "[%s] %s setting to %s";
                   Call (async_api_turnCollection (VStr "D1") (VStr "0") (VStr "door")) ] |}) /\
  (get_current_option <$>
     entities (snd (ImouSelect_async_select_option home_cloud 0 (VStr "door")
                      (start tt [] [updated_select]))) !! 0) = Some (VStr SENTINEL).
Proof.
  split; [reflexivity|].
  destruct (select_option_sends_and_snaps_back home_cloud (start tt [] [updated_select]) 0
              updated_select (VStr SENTINEL) (VStr SENTINEL) [VStr "door"] (VStr "door")
              (start tt [] [updated_select]) VNone tt
              eq_refl eq_refl eq_refl eq_refl eq_refl eq_refl) as [Hrun [Hcurrent _]].
  split; [exact Hrun | exact Hcurrent].
Defined.

(** A channel with its status sensor, asked for that sensor by its name. *)
Lemma get_sensor_by_name_never_finds_witness :
  get_sensor_by_name no_str 0 (VStr "status ") (VStr "Cam")
    (start tt [channel_with_sensor] [status_sensor]) =
    (Raise AttributeError, start tt [channel_with_sensor] [status_sensor]).
Proof.
  assert (Hall : forall i, In i (get_all_sensors channel_with_sensor) ->
                 exists e, entities (start tt [channel_with_sensor] [status_sensor]) !! i
                           = Some e).
  { intros i [<-|[]]. eexists. reflexivity. }
  destruct (get_sensor_by_name_never_finds no_str
              (start tt [channel_with_sensor] [status_sensor]) 0 channel_with_sensor
              (VStr "status ") (VStr "Cam") eq_refl Hall) as [_ [H _]].
  apply H. exists 0, status_sensor. repeat split. now left.
Defined.


(** An account with no device. *)
Lemma discover_no_device_witness :
  fst (async_discover_channels cloud_no_devices no_str (start tt [] [])) = Ok [].
Proof.
  erewrite (discover_no_device cloud_no_devices no_str (start tt [] []));
    [reflexivity | reflexivity | reflexivity | reflexivity].
Defined.


(** A first cycle on a channel of the home cloud. *)
Lemma channel_identity_is_never_written_witness :
  channels_related channel_kept (start tt [fresh_channel] [])
    (snd (async_get_data home_cloud no_str 0 (start tt [fresh_channel] []))).
Proof.
  destruct (async_get_data home_cloud no_str 0 (start tt [fresh_channel] []))
    as [r w'] eqn:E.
  exact (proj1 (channel_identity_is_never_written home_cloud no_str) 0 _ _ _ E).
Defined.

(** A discovery from the empty world. *)
Lemma no_wake_command_without_sleeper_witness :
  no_sleeper (snd (async_discover_channels cloud_three_devices no_str (start tt [] []))) /\
  wake_commands
    (trace (snd (async_discover_channels cloud_three_devices no_str (start tt [] [])))) = [].
Proof.
  destruct (async_discover_channels cloud_three_devices no_str (start tt [] []))
    as [r w'] eqn:E.
  destruct (no_wake_command_without_sleeper cloud_three_devices no_str)
    as [_ [_ [_ [_ [_ [_ H]]]]]].
  apply (H _ _ _ E). intros i c Hi. discriminate Hi.
Defined.



(** A sensor attached to a channel that does not sleep. *)
Lemma ready_gate_without_request_witness :
  _async_is_ready refusing_cloud 0
    (start tt [fresh_channel] [set_en_device_instance (Some 0) status_sensor]) =
    (Ok true, start tt [fresh_channel] [set_en_device_instance (Some 0) status_sensor]).
Proof.
  apply (ready_gate_without_request refusing_cloud
           (start tt [fresh_channel] [set_en_device_instance (Some 0) status_sensor]) 0
           (set_en_device_instance (Some 0) status_sensor) eq_refl eq_refl).
  right. exists 0, fresh_channel. repeat split.
Defined.

(** A preset record without a name. *)
Lemma select_update_failure_keeps_options_witness :
  ImouSelect_async_update cloud_nameless_preset 0 (start tt [] [updated_select]) =
    (Raise (KeyError (VStr "name")),
     {| cloud := tt; channels := []; entities := [updated_select];
        trace := [ Call (async_api_getCollection (VStr "D1") (VStr "0"));
                   Log DEBUG "found {len} collection points" ] |}).
Proof.
  exact (select_update_failure_keeps_options cloud_nameless_preset
           (start tt [] [updated_select]) 0 updated_select (VStr SENTINEL)
           [VStr SENTINEL; VStr "door"] (start tt [] [updated_select])
           (VDict [ ("collections", VList [ VDict [] ]) ]) tt [ VDict [] ]
           (KeyError (VStr "name")) eq_refl eq_refl eq_refl eq_refl eq_refl eq_refl eq_refl).
Defined.
